(** * SupermarketAppMVC: the cart-to-order checkout pipeline

    A shallow embedding of the storefront's models and controllers
    (models/productModel.js, models/cartModel.js, models/orderModel.js,
    models/orderItemModel.js, controllers/cartController.js,
    controllers/adminOrdersController.js) and the properties of its
    checkout pipeline.

    - JavaScript numbers that carry money are IEEE-754 binary64 values:
      the kernel's primitive floats, with [toFixed(2)] and [Number(...)]
      written out on the exact binary value.
    - Quantities come from INT columns and form fields: integers, plus the
      non-finite outcomes of [Number(...)] (NaN, the infinities) that the
      controllers branch on.
    - The MySQL tables are explicit state; every [db.query] may fail, as
      decided by a fault oracle, and hands an error to its callback.
    - Where a property depends on how far binary64 arithmetic is from the
      exact result, the finite values are read as real numbers and the
      error of each operation is bounded from its specification. *)

From Stdlib Require Import ZArith QArith Qabs Lia Ascii String.
From Stdlib Require Import PrimFloat FloatOps SpecFloat FloatAxioms.
From Stdlib Require Import Reals Lra Qreals.
From stdpp Require Import base option list gmap strings pretty.

Set Warnings "-inexact-float".
Local Open Scope Z_scope.

(* ===================================================================== *)
(** ** JavaScript built-ins used by the sources *)
(* ===================================================================== *)

Module JS.

(** *** Numbers: binary64 *)

(** [Number(z)] for an integer read from an INT column: the nearest
    binary64 value (exact below 2^53). *)
Definition Number_of_int (z : Z) : float :=
  SF2Prim (binary_normalize prec emax z 0 false).

(** What [x.toFixed(2)] prints.  For a finite [x] with |x| < 10^21 it is
    a sign and a whole number of hundredths; otherwise it is the text of
    [String(x)] ("NaN", "Infinity", "1e+21", ...), which [Number] reads
    back as [x] itself. *)
Inductive numeral :=
| Fixed2 (neg : bool) (hundredths : Z)
| Plain (x : float).

(** The exact value of a finite binary64 number is [m * 2^e]. *)
Definition at_least_1e21 (m : positive) (e : Z) : bool :=
  if 0 <=? e then 10 ^ 21 <=? Z.pos m * 2 ^ e
  else 10 ^ 21 * 2 ^ (- e) <=? Z.pos m.

(** "Let n be an integer for which n / 10^2 - x is as close to zero as
    possible.  If there are two such n, pick the larger n."
    That is n = floor (100 * m * 2^e + 1/2). *)
Definition hundredths_of (m : positive) (e : Z) : Z :=
  if 0 <=? e then 100 * Z.pos m * 2 ^ e
  else (200 * Z.pos m + 2 ^ (- e)) / 2 ^ (- e + 1).

Definition toFixed2 (x : float) : numeral :=
  match Prim2SF x with
  | S754_nan => Plain x
  | S754_infinity _ => Plain x
  | S754_zero _ => Fixed2 false 0
  | S754_finite s m e =>
      if at_least_1e21 m e then Plain x else Fixed2 s (hundredths_of m e)
  end.

(** [Number(text)] on what [toFixed(2)] printed: the binary64 value
    nearest to n/100 (ties to even), with the sign kept on zero. *)
Definition Number_of_numeral (d : numeral) : float :=
  match d with
  | Plain x => x
  | Fixed2 neg (Z.pos n) =>
      SF2Prim (SFdiv prec emax (S754_finite neg n 0) (S754_finite false 100 0))
  | Fixed2 neg _ => if neg then neg_zero else zero
  end.

(** [Number(x.toFixed(2))], the rounding idiom of all three sources. *)
Definition round2 (x : float) : float := Number_of_numeral (toFixed2 x).

(** [x || 0] on a number: NaN, +0 and -0 are falsy. *)
Definition or_zero (x : float) : float :=
  if is_nan x || is_zero x then zero else x.

Definition isFinite (x : float) : bool := negb (is_nan x || is_infinity x).

(** The exact rational value [m * 2^e] of a finite binary64 number. *)
Definition exact (m : positive) (e : Z) : Q :=
  if 0 <=? e then inject_Z (Z.pos m * 2 ^ e)
  else Z.pos m # Z.to_pos (2 ^ (- e)).

(** *** Numbers on the quantity paths

    Stock and cart quantities are read from INT columns; the requested
    quantity is [Number(...)] of a form field.  The controllers only
    compare and add them, so integers, NaN and the two infinities are
    all that can flow there (a fractional request is outside this type). *)
Inductive num :=
| NaN
| Fin (z : Z)
| Inf (neg : bool).

(** [x <= y], [x > y], [x < y] *)
Definition num_leb (x y : num) : bool :=
  match x, y with
  | NaN, _ | _, NaN => false
  | Fin a, Fin b => a <=? b
  | Inf true, _ => true
  | _, Inf false => true
  | _, _ => false
  end.

Definition num_ltb (x y : num) : bool :=
  match x, y with
  | NaN, _ | _, NaN => false
  | Fin a, Fin b => a <? b
  | Inf true, Inf true => false
  | Inf false, Inf false => false
  | Inf true, _ => true
  | _, Inf false => true
  | _, _ => false
  end.

Definition num_gtb (x y : num) : bool := num_ltb y x.

(** [x + y] *)
Definition num_add (x y : num) : num :=
  match x, y with
  | NaN, _ | _, NaN => NaN
  | Fin a, Fin b => Fin (a + b)
  | Inf s, Fin _ | Fin _, Inf s => Inf s
  | Inf s, Inf t => if Bool.eqb s t then Inf s else NaN
  end.

(** [Math.max(x, y)]: NaN if either argument is NaN. *)
Definition Math_max (x y : num) : num :=
  match x, y with
  | NaN, _ | _, NaN => NaN
  | _, _ => if num_ltb x y then y else x
  end.

Definition num_isFinite (x : num) : bool :=
  match x with Fin _ => true | _ => false end.

(** A field of [req.body] as [express.urlencoded] delivers it, read by
    what [Number(...)] makes of it. *)
Inductive field :=
| Absent                  (* undefined: the field was not sent *)
| Blank                   (* the empty string, falsy *)
| Numeral (z : Z)         (* non-empty text that Number() reads as z *)
| Infinite (neg : bool)   (* "Infinity", "-Infinity" *)
| Garbage.                (* non-empty text that Number() reads as NaN *)

(** [Number(v || 1)] *)
Definition Number_or_1 (v : field) : num :=
  match v with
  | Absent | Blank => Fin 1
  | Numeral z => Fin z
  | Infinite s => Inf s
  | Garbage => NaN
  end.

(** *** Strings: code units 0..255 (Latin-1) *)

Definition toLowerCase_unit (c : ascii) : ascii :=
  let n := N_of_ascii c in
  if ((65 <=? n) && (n <=? 90) || (192 <=? n) && (n <=? 214)
      || (216 <=? n) && (n <=? 222))%N
  then ascii_of_N (n + 32) else c.

Fixpoint toLowerCase (s : string) : string :=
  match s with
  | EmptyString => EmptyString
  | String c r => String (toLowerCase_unit c) (toLowerCase r)
  end.

(** WhiteSpace and LineTerminator code units below 256:
    TAB, LF, VT, FF, CR, SP, NBSP. *)
Definition is_white (c : ascii) : bool :=
  let n := N_of_ascii c in
  ((9 <=? n) && (n <=? 13) || (n =? 32) || (n =? 160))%N.

Fixpoint trimStart (s : string) : string :=
  match s with
  | String c r => if is_white c then trimStart r else s
  | EmptyString => EmptyString
  end.

(** [trimEnd] keeps a character when something that is not white space
    follows it. *)
Fixpoint trimEnd (s : string) : string :=
  match s with
  | EmptyString => EmptyString
  | String c r =>
      match trimEnd r with
      | EmptyString => if is_white c then EmptyString else String c EmptyString
      | r' => String c r'
      end
  end.

Definition trim (s : string) : string := trimEnd (trimStart s).

(** *** Numbers in template literals

    [`${z}`] for a Number whose value is the integer [z] (a route
    parameter read by [Number(...)]): the decimal digits below 10^21, and
    from 10^21 on the fewest digits that read back as the same binary64
    number, in exponent form ("1e+21"). *)

(** The integer a binary64 number holds when it is the nearest to the
    integer [v >= 0]: 53 significant bits, ties to even. *)
Definition nearest_double (v : Z) : Z :=
  let k := Z.log2 v + 1 - 53 in
  if k <=? 0 then v
  else
    let q := v / 2 ^ k in
    let r := v mod 2 ^ k in
    let half := 2 ^ (k - 1) in
    (if (r <? half) || ((r =? half) && Z.even q) then q else q + 1) * 2 ^ k.

Fixpoint strip_zeros (digits : list ascii) : list ascii :=
  match digits with
  | [] => []
  | c :: r =>
      match strip_zeros r with
      | [] => if Ascii.eqb c "0" then [] else [c]
      | r' => c :: r'
      end
  end.

(** The decimal of [k] significant digits, out of [n], that is nearest
    to [z] and reads back as [z], if there is one. *)
Definition reads_back (z n k : Z) : option Z :=
  let unit := 10 ^ (n - k) in
  let lo := z / unit * unit in
  let hi := lo + unit in
  match nearest_double lo =? z, nearest_double hi =? z with
  | true, true => Some (if z - lo <=? hi - z then lo else hi)
  | true, false => Some lo
  | false, true => Some hi
  | false, false => None
  end.

(** "d.ddd" followed by "e+" and the exponent. *)
Definition exponent_form (v : Z) : string :=
  let digits := String.list_ascii_of_string (pretty v) in
  let e := pretty (Z.of_nat (length digits) - 1) in
  match strip_zeros digits with
  | [] => "0"
  | [d] => String d ("e+" +:+ e)
  | d :: r => String d ("." +:+ String.string_of_list_ascii r +:+ "e+" +:+ e)
  end.

Definition String_of_nonneg (z : Z) : string :=
  if z <? 10 ^ 21 then pretty z
  else
    let n := Z.of_nat (String.length (pretty z)) in
    match omap (reads_back z n) (map Z.of_nat (seq 1 17)) with
    | v :: _ => exponent_form v
    | [] => exponent_form z
    end.

Definition String_of_int (z : Z) : string :=
  if z <? 0 then "-" +:+ String_of_nonneg (nearest_double (- z))
  else String_of_nonneg (nearest_double z).

End JS.

(* ===================================================================== *)
(** ** The MySQL tables *)
(* ===================================================================== *)

(** products (id is the key of the map); [p_price] is the column as
    JavaScript reads it in [item.price * item.quantity] *)
Record product := Product {
  p_productName : string;
  p_quantity : Z;
  p_price : float;
  p_image : string
}.

(** cart_items, UNIQUE (userId, productId); the list is in [ci.id] order *)
Record cart_item := CartItem {
  ci_userId : Z;
  ci_productId : Z;
  ci_quantity : Z
}.

(** orders (id is the key of the map; createdAt is filled by the server) *)
Record order := Order {
  o_invoiceNumber : string;
  o_userId : Z;
  o_subtotal : float;
  o_tax_amount : float;
  o_total : float;
  o_status : string
}.

(** order_items *)
Record order_item := OrderItem {
  oi_orderId : Z;
  oi_productId : Z;
  oi_productName : string;
  oi_unitPrice : float;
  oi_quantity : Z;
  oi_subtotal : float
}.

Record db := Db {
  products : gmap Z product;
  cart_items : list cart_item;
  orders : gmap Z order;
  orders_auto_increment : Z;
  order_items : list order_item
}.

(** The statements the models send through [db.query].  The UPDATEs of
    [decreaseQuantities] are sent one per turn of its [forEach]: each
    carries the place of its item in the list, so that two of them are
    never one statement, even for the same product. *)
Inductive query :=
| SelectProduct (id : Z)
| UpdateProduct (id : Z)
| DeleteProduct (id : Z)
| DecreaseProduct (index : nat) (id : Z)
| SelectCart (userId : Z)
| SelectCartQuantity (userId productId : Z)
| UpsertCartItem (userId productId : Z)
| DeleteCartItem (userId productId : Z)
| DeleteCart (userId : Z)
| InsertOrder (userId : Z)
| UpdateOrder (orderId : Z)
| InsertOrderItems (orderId : Z)
| SelectOrderItems (orderId : Z).

(** What a node-style callback receives: [callback(null, a)] or
    [callback(err)]. *)
Inductive result (A : Type) :=
| Ok (a : A)
| Err.
Arguments Ok {A} a.
Arguments Err {A}.

(** A model call: it reads and writes the tables and calls back once. *)
Definition M (A : Type) : Type := db → db * result A.

(** [return callback(null, a)] without a statement. *)
Definition ret {A} (a : A) : M A := λ s, (s, Ok a).

(** A row of [getCartItems], which is also the cart item of the
    controllers: {id, productName, price, image, quantity}. *)
Record cart_line := CartLine {
  id : Z;
  productName : string;
  price : float;
  image : string;
  quantity : Z
}.

(** [db.query(sql, params, callback)] for a statement that reads;
    [fails] tells the statements that fail.  A failed statement changes
    nothing. *)
Definition select {A} (fails : query → bool) (q : query) (read : db → A) : M A :=
  λ s, if fails q then (s, Err) else (s, Ok (read s)).

(** [db.query(sql, params, callback)] for a statement that writes. *)
Definition execute (fails : query → bool) (q : query) (write : db → db) : M unit :=
  λ s, if fails q then (s, Err) else (write s, Ok tt).

(** [items.forEach(...)]: the items in order, each with its place in
    the list. *)
Fixpoint indexed_from {A} (index : nat) (items : list A) : list (nat * A) :=
  match items with
  | [] => []
  | item :: rest => (index, item) :: indexed_from (S index) rest
  end.

Definition indexed {A} (items : list A) : list (nat * A) := indexed_from 0 items.

Definition set_products (f : gmap Z product → gmap Z product) (s : db) : db :=
  Db (f (products s)) (cart_items s) (orders s) (orders_auto_increment s)
     (order_items s).

Definition set_cart_items (f : list cart_item → list cart_item) (s : db) : db :=
  Db (products s) (f (cart_items s)) (orders s) (orders_auto_increment s)
     (order_items s).

(* --------------------------------------------------------------------- *)
(** *** models/productModel.js *)

Module productModel.
Section WithFaults.
Variable fails : query → bool.

(** SELECT ... FROM products WHERE id = ?; [rows[0] || null] *)
Definition getById (id : Z) : M (option product) :=
  select fails (SelectProduct id) (λ s, products s !! id).

(** UPDATE products SET productName=?, quantity=?, price=?, image=?
    WHERE id=? *)
Definition update (id : Z) (fields : product) : M unit :=
  execute fails (UpdateProduct id)
    (set_products (λ ps, match ps !! id with
                         | Some _ => <[id := fields]> ps
                         | None => ps
                         end)).

(** DELETE FROM products WHERE id=? *)
Definition remove (id : Z) : M unit :=
  execute fails (DeleteProduct id) (set_products (delete id)).

(** UPDATE products SET quantity = GREATEST(quantity - ?, 0)
    WHERE id = ? *)
Definition decrease (qty : Z) (p : product) : product :=
  Product (p_productName p) (Z.max (p_quantity p - qty) 0) (p_price p)
          (p_image p).

(** One turn of the [forEach]: an item whose quantity is not positive
    is passed over; otherwise its UPDATE runs, and a failed UPDATE is
    remembered ([error]) while the other statements still run. *)
Definition decrease_one (acc : db * bool) (turn : nat * cart_line) : db * bool :=
  let '(s, error) := acc in
  let '(index, item) := turn in
  let qty := quantity item in          (* Number(item.quantity) || 0 *)
  if qty <=? 0 then (s, error)
  else if fails (DecreaseProduct index (id item)) then (s, true)
  else (set_products (alter (decrease qty) (id item)) s, error).

Definition decreaseQuantities (items : list cart_line) : M unit :=
  λ s, match items with
       | [] => (s, Ok tt)                (* Nothing to update *)
       | _ =>
           let '(s', error) := fold_left decrease_one (indexed items) (s, false) in
           (s', if error then Err else Ok tt)
       end.

End WithFaults.
End productModel.

(* --------------------------------------------------------------------- *)
(** *** models/cartModel.js *)

Module cartModel.
Section WithFaults.
Variable fails : query → bool.

Definition is_line (userId productId : Z) (r : cart_item) : bool :=
  (ci_userId r =? userId) && (ci_productId r =? productId).

(** ... FROM cart_items ci INNER JOIN products p ON p.id = ci.productId:
    a cart row whose product is gone yields no row. *)
Definition join_product (ps : gmap Z product) (r : cart_item) : option cart_line :=
  match ps !! ci_productId r with
  | Some p =>
      Some (CartLine (ci_productId r) (p_productName p) (p_price p) (p_image p)
                     (ci_quantity r))
  | None => None
  end.

(** SELECT ci.productId AS id, ci.quantity, p.productName, p.price, p.image
    ... WHERE ci.userId = ? ORDER BY ci.id ASC *)
Definition getCartItems (userId : Z) : M (list cart_line) :=
  select fails (SelectCart userId)
    (λ s, omap (join_product (products s))
               (List.filter (λ r, ci_userId r =? userId) (cart_items s))).

(** SELECT quantity FROM cart_items WHERE userId = ? AND productId = ?;
    [rows[0] ? Number(rows[0].quantity) : 0] *)
Definition getItemQuantity (userId productId : Z) : M Z :=
  select fails (SelectCartQuantity userId productId)
    (λ s, match List.find (is_line userId productId) (cart_items s) with
          | Some r => ci_quantity r
          | None => 0
          end).

(** DELETE FROM cart_items WHERE userId = ? AND productId = ? *)
Definition removeItem (userId productId : Z) : M unit :=
  execute fails (DeleteCartItem userId productId)
    (set_cart_items (List.filter (λ r, negb (is_line userId productId r)))).

(** INSERT INTO cart_items (userId, productId, quantity) VALUES (?, ?, ?)
    ON DUPLICATE KEY UPDATE quantity = VALUES(quantity):
    the row of the key is rewritten where it stands, a new row gets the
    next id and so comes last. *)
Fixpoint upsert (userId productId q : Z) (rows : list cart_item) : list cart_item :=
  match rows with
  | [] => [CartItem userId productId q]
  | r :: rest =>
      if is_line userId productId r then CartItem userId productId q :: rest
      else r :: upsert userId productId q rest
  end.

(** [quantity] is whatever the controller computed.  A quantity that is
    not a finite number passes the [quantity <= 0] test when it is NaN or
    +Infinity; the INT column cannot take it, so that INSERT is a failed
    statement. *)
Definition setQuantity (userId productId : Z) (quantity : JS.num) : M unit :=
  if JS.num_leb quantity (JS.Fin 0) then removeItem userId productId
  else match quantity with
       | JS.Fin q =>
           execute fails (UpsertCartItem userId productId)
             (set_cart_items (upsert userId productId q))
       | _ => λ s, (s, Err)
       end.

(** DELETE FROM cart_items WHERE userId = ? *)
Definition clearCart (userId : Z) : M unit :=
  execute fails (DeleteCart userId)
    (set_cart_items (List.filter (λ r, negb (ci_userId r =? userId)))).

End WithFaults.
End cartModel.

(* --------------------------------------------------------------------- *)
(** *** models/orderModel.js *)

(** A JavaScript value where the sources ask [typeof v === 'string'] or
    use [v || ...]: a string, or something that is not a string. *)
Inductive value :=
| Str (s : string)
| NotString (truthy : bool).

Module orderModel.

Definition ORDER_STATUSES : list string :=
  ["Pending for delivery"; "Order delivered"; "Order completed";
   "Order cancelled"]%string.

(** ORDER_STATUSES[0] *)
Definition DEFAULT_ORDER_STATUS : string := "Pending for delivery".

Definition normalizeStatus (status : value) : string :=
  match status with
  | NotString _ => DEFAULT_ORDER_STATUS
  | Str s =>
      match JS.trim s with
      | EmptyString => DEFAULT_ORDER_STATUS
      | t =>
          match List.find (λ opt, String.eqb (JS.toLowerCase opt) (JS.toLowerCase t))
                          ORDER_STATUSES with
          | Some m => m                      (* match || DEFAULT_ORDER_STATUS *)
          | None => DEFAULT_ORDER_STATUS
          end
      end
  end.

(** [Number((Number(value) || 0).toFixed(2))]; [None] is [undefined],
    which [Number] reads as NaN. *)
Definition formatMoney (v : option float) : float :=
  JS.round2 (JS.or_zero (default nan v)).

(** The [totals] object of [create] and the field object of [update];
    a number field is [None] when it is not a number. *)
Record totals := Totals {
  t_subtotal : option float;
  t_taxAmount : option float;
  t_total : option float;
  t_status : value
}.

(** [payload.status || DEFAULT_ORDER_STATUS] *)
Definition status_or_default (v : value) : value :=
  match v with
  | Str EmptyString => Str DEFAULT_ORDER_STATUS
  | Str s => Str s
  | NotString true => NotString true
  | NotString false => Str DEFAULT_ORDER_STATUS
  end.

Definition set_orders (f : gmap Z order → gmap Z order) (s : db) : db :=
  Db (products s) (cart_items s) (f (orders s)) (orders_auto_increment s)
     (order_items s).

(** The row [create] sends to INSERT INTO orders. *)
Definition create_row (userId : Z) (invoiceNumber : string) (payload : totals) : order :=
  let subtotal := formatMoney (t_subtotal payload) in
  let taxAmount := formatMoney (t_taxAmount payload) in
  let finalTotal := default nan (t_total payload) in      (* Number(payload.total) *)
  let finalTotal :=
    if JS.isFinite finalTotal then finalTotal else (subtotal + taxAmount)%float in
  let total := formatMoney (Some finalTotal) in
  let normalizedStatus := normalizeStatus (status_or_default (t_status payload)) in
  Order invoiceNumber userId subtotal taxAmount total normalizedStatus.

(** The row [update] sends to UPDATE orders; the owner is not touched. *)
Definition update_row (invoiceNumber : string) (f : totals) (old : order) : order :=
  let normalizedStatus := normalizeStatus (t_status f) in
  let safeSubtotal :=
    formatMoney (match t_subtotal f with Some x => Some x | None => t_total f end) in
  let safeTaxAmount :=
    formatMoney (match t_taxAmount f with Some x => Some x | None => Some zero end) in
  let safeTotal :=
    formatMoney (match t_total f with
                 | Some x => Some x
                 | None => Some (safeSubtotal + safeTaxAmount)%float
                 end) in
  Order invoiceNumber (o_userId old) safeSubtotal safeTaxAmount safeTotal
        normalizedStatus.

Section WithFaults.
Variable fails : query → bool.

(** INSERT INTO orders (invoiceNumber, userId, subtotal, tax_amount, total,
    status) VALUES (...); calls back with [result.insertId]. *)
Definition create (userId : Z) (invoiceNumber : string) (payload : totals) : M Z :=
  λ s, if fails (InsertOrder userId) then (s, Err)
       else
         let insertId := orders_auto_increment s in
         (Db (products s) (cart_items s)
             (<[insertId := create_row userId invoiceNumber payload]> (orders s))
             (insertId + 1) (order_items s),
          Ok insertId).

(** UPDATE orders SET invoiceNumber = ?, subtotal = ?, tax_amount = ?,
    total = ?, status = ? WHERE id = ? *)
Definition update (orderId : Z) (invoiceNumber : string) (f : totals) : M unit :=
  execute fails (UpdateOrder orderId)
    (set_orders (alter (update_row invoiceNumber f) orderId)).

End WithFaults.
End orderModel.

(* --------------------------------------------------------------------- *)
(** *** models/orderItemModel.js *)

Module orderItemModel.

(** [orderId, item.id, item.productName, item.price, item.quantity,
     item.price * item.quantity] *)
Definition row_of (orderId : Z) (item : cart_line) : order_item :=
  OrderItem orderId (id item) (productName item) (price item) (quantity item)
            (price item * JS.Number_of_int (quantity item))%float.

Section WithFaults.
Variable fails : query → bool.

(** INSERT INTO order_items (...) VALUES ? : one statement for all rows. *)
Definition createMany (orderId : Z) (items : list cart_line) : M unit :=
  match items with
  | [] => ret tt
  | _ =>
      execute fails (InsertOrderItems orderId)
        (λ s, Db (products s) (cart_items s) (orders s) (orders_auto_increment s)
                 (order_items s ++ map (row_of orderId) items))
  end.

(** SELECT productId, productName, unitPrice, quantity, subtotal
    FROM order_items WHERE orderId = ? *)
Definition getByOrder (orderId : Z) : M (list order_item) :=
  select fails (SelectOrderItems orderId)
    (λ s, List.filter (λ r, oi_orderId r =? orderId) (order_items s)).

End WithFaults.
End orderItemModel.

(* ===================================================================== *)
(** ** Controllers *)
(* ===================================================================== *)

(** What a handler does with [res]. *)
Inductive response :=
| send (status : Z) (body : string)          (* res.status(n).send(body) *)
| redirect (path : string)                   (* res.redirect(path) *)
| render_checkout (cart : list cart_line) (invoiceDate : Z)
    (invoiceNumber : string) (subtotal taxAmount total : float).

(** The end of a request: [req.session.messages] when the handler assigned
    it, and the response. *)
Record reply := Reply {
  messages : option (list string);
  res : response
}.

Definition handler : Type := db → db * reply.

Definition respond (r : reply) : handler := λ s, (s, r).

(** [model.call(..., (err, a) => { if (err) return <failed>; <k a> })] *)
Definition on {A} (m : M A) (failed : reply) (k : A → handler) : handler :=
  λ s, match m s with
       | (s', Ok a) => k a s'
       | (s', Err) => (s', failed)
       end.

Definition database_error : reply := Reply None (send 500 "Database error").
Definition not_found : reply := Reply None (send 404 "Not found").

(* --------------------------------------------------------------------- *)
(** *** controllers/cartController.js *)

Module cartController.

Definition TAX_RATE : float := 0.09%float.

Definition insufficientStockMessage (productName : string) : string :=
  "Don't have sufficient stock for " +:+ productName +:+ ".".

(** [quantity: Number(row.quantity) || 1] *)
Definition mapCartRows (rows : list cart_line) : list cart_line :=
  map (λ row, CartLine (id row) (productName row) (price row) (image row)
                       (if quantity row =? 0 then 1 else quantity row))
      rows.

(** [cart.reduce((sum, item) => sum + (item.price * item.quantity), 0)] *)
Definition subtotal_of (cart : list cart_line) : float :=
  fold_left (λ sum item, (sum + price item * JS.Number_of_int (quantity item))%float)
            cart zero.

Section WithFaults.
Variable fails : query → bool.

(** POST /add-to-cart/:id *)
Definition add (userId productId : Z) (body_quantity : JS.field)
    (body_redirect : option string) : handler :=
  let requestedQty := JS.Math_max (JS.Fin 1) (JS.Number_or_1 body_quantity) in
  let target :=
    if String.eqb (JS.toLowerCase (default EmptyString body_redirect)) "cart"
    then "/cart"%string else "/shopping"%string in
  on (productModel.getById fails productId) database_error (λ found,
    match found with
    | None => respond not_found
    | Some product =>
        let availableQty := p_quantity product in  (* Number(product.quantity) || 0 *)
        if availableQty <=? 0 then
          respond (Reply (Some [insufficientStockMessage (p_productName product)])
                         (redirect target))
        else
          on (cartModel.getItemQuantity fails userId productId) database_error
            (λ currentQty,
              let maxAddable := availableQty - currentQty in
              if (maxAddable <=? 0) || JS.num_gtb requestedQty (JS.Fin maxAddable)
              then
                respond (Reply (Some [insufficientStockMessage (p_productName product)])
                               (redirect target))
              else
                on (cartModel.setQuantity fails userId productId
                      (JS.num_add (JS.Fin currentQty) requestedQty))
                   database_error
                   (λ _, respond (Reply None (redirect target))))
    end).

(** POST /cart/remove/:id *)
Definition remove (userId id : Z) : handler :=
  on (cartModel.removeItem fails userId id) database_error
     (λ _, respond (Reply None (redirect "/cart"))).

(** POST /cart/clear *)
Definition clear (userId : Z) : handler :=
  on (cartModel.clearCart fails userId) database_error
     (λ _, respond (Reply None (redirect "/cart"))).

(** The quantity [updateQuantity] goes on with:
    [if (!Number.isFinite(qty) || qty < 1) qty = 1; if (qty > 999) qty = 999;] *)
Definition requested_quantity (body_quantity : JS.field) : JS.num :=
  let qty := JS.Number_or_1 body_quantity in
  let qty :=
    if negb (JS.num_isFinite qty) || JS.num_ltb qty (JS.Fin 1) then JS.Fin 1
    else qty in
  if JS.num_gtb qty (JS.Fin 999) then JS.Fin 999 else qty.

(** POST /cart/update/:id *)
Definition updateQuantity (userId id : Z) (body_quantity : JS.field) : handler :=
  let qty := requested_quantity body_quantity in
  on (productModel.getById fails id) database_error (λ found,
    match found with
    | None => respond not_found
    | Some product =>
        let availableQty := p_quantity product in
        let notice := Some [insufficientStockMessage (p_productName product)] in
        if availableQty <=? 0 then
          on (cartModel.removeItem fails userId id)
             (Reply notice (send 500 "Database error"))
             (λ _, respond (Reply notice (redirect "/cart")))
        else
          let over := JS.num_gtb qty (JS.Fin availableQty) in
          let said := if over then notice else None in
          let qty := if over then JS.Fin availableQty else qty in
          on (cartModel.setQuantity fails userId id qty)
             (Reply said (send 500 "Database error"))
             (λ _, respond (Reply said (redirect "/cart")))
    end).

(** GET /cart/checkout; [now] is [new Date().getTime()]. *)
Definition checkout (userId now : Z) : handler :=
  on (cartModel.getCartItems fails userId) database_error (λ rows,
    let cart := mapCartRows rows in
    match cart with
    | [] => respond (Reply (Some ["Your cart is empty."%string]) (redirect "/cart"))
    | _ =>
        let invoiceNumber := ("INV-" +:+ pretty now)%string in
        let subtotal := subtotal_of cart in
        let taxAmount := JS.round2 (subtotal * TAX_RATE)%float in
        let total := JS.round2 (subtotal + taxAmount)%float in
        on (orderModel.create fails userId invoiceNumber
              (orderModel.Totals (Some subtotal) (Some taxAmount) (Some total)
                                 (NotString false)))
           database_error (λ orderId,
        on (orderItemModel.createMany fails orderId cart) database_error (λ _,
        on (productModel.decreaseQuantities fails cart) database_error (λ _,
        on (cartModel.clearCart fails userId) database_error (λ _,
          respond (Reply None (render_checkout cart now invoiceNumber
                                               subtotal taxAmount total))))))
    end).

End WithFaults.
End cartController.

(* --------------------------------------------------------------------- *)
(** *** controllers/adminOrdersController.js *)

Module adminOrdersController.

(** orderModel.STATUSES *)
Definition STATUS_OPTIONS : list string := orderModel.ORDER_STATUSES.

Definition TAX_RATE : float := 0.09%float.

(** The fields of the edit form: [total] is given as [Number(total)]. *)
Record edit_form := EditForm {
  f_invoiceNumber : option string;
  f_parsedTotal : float;
  f_status : value
}.

Definition includes (opts : list string) (s : string) : bool :=
  existsb (String.eqb s) opts.

(** The messages pushed onto [errors], in order. *)
Definition validate (f : edit_form) : list string :=
  let trimmedStatus :=
    match f_status f with Str s => JS.trim s | NotString _ => EmptyString end in
  (match f_invoiceNumber f with
   | None | Some EmptyString => ["Invoice number is required."%string]
   | Some _ => []
   end)
  ++ (if negb (JS.isFinite (f_parsedTotal f)) || (f_parsedTotal f <? zero)%float
      then ["Total must be a positive number."%string] else [])
  ++ (if includes STATUS_OPTIONS trimmedStatus && negb (String.eqb trimmedStatus "")
      then [] else ["Please select a valid order status."%string]).

(** [Number((parsedTotal / (1 + TAX_RATE)).toFixed(2))] *)
Definition recomputed_subtotal (parsedTotal : float) : float :=
  JS.round2 (parsedTotal / (one + TAX_RATE))%float.

(** [let taxAmount = Number((parsedTotal - subtotal).toFixed(2));
     if (taxAmount < 0) taxAmount = 0;] *)
Definition recomputed_taxAmount (parsedTotal : float) : float :=
  let taxAmount := JS.round2 (parsedTotal - recomputed_subtotal parsedTotal)%float in
  if (taxAmount <? zero)%float then zero else taxAmount.

Section WithFaults.
Variable fails : query → bool.

(** POST /admin/orders/:id/edit; [orderId] is [None] when
    [Number(req.params.id)] is NaN. *)
Definition update (orderId : option Z) (f : edit_form) : handler :=
  match orderId with
  | None => respond (Reply None (redirect "/admin/orders"))
  | Some orderId =>
      let edit := ("/admin/orders/" +:+ JS.String_of_int orderId +:+ "/edit")%string in
      match validate f with
      | (_ :: _) as errors => respond (Reply (Some errors) (redirect edit))
      | [] =>
          let parsedTotal := f_parsedTotal f in
          let subtotal := recomputed_subtotal parsedTotal in
          let taxAmount := recomputed_taxAmount parsedTotal in
          let statusValue :=
            match f_status f with Str s => JS.trim s | NotString _ => EmptyString end in
          on (orderModel.update fails orderId (default EmptyString (f_invoiceNumber f))
                (orderModel.Totals (Some subtotal) (Some taxAmount) (Some parsedTotal)
                                   (Str statusValue)))
             (Reply (Some ["Failed to update order"%string]) (redirect edit))
             (λ _, respond (Reply (Some ["Order updated"%string])
                                  (redirect "/admin/orders")))
      end
  end.

End WithFaults.
End adminOrdersController.

(* ===================================================================== *)
(** ** The shopper's routes (app.js) and the invariants of the tables *)
(* ===================================================================== *)

Inductive request :=
| PostAddToCart (id : Z) (quantity : JS.field) (redirect : option string)
| PostCartRemove (id : Z)
| PostCartUpdate (id : Z) (quantity : JS.field)
| PostCartClear
| GetCartCheckout (now : Z).

(** The routes behind [ensureUser], for the logged-in user [userId]. *)
Definition route (fails : query → bool) (userId : Z) (r : request) : handler :=
  match r with
  | PostAddToCart id q target => cartController.add fails userId id q target
  | PostCartRemove id => cartController.remove fails userId id
  | PostCartUpdate id q => cartController.updateQuantity fails userId id q
  | PostCartClear => cartController.clear fails userId
  | GetCartCheckout now => cartController.checkout fails userId now
  end.

(** No product has a negative stock. *)
Definition stock_nonneg (s : db) : Prop :=
  ∀ id p, products s !! id = Some p → 0 ≤ p_quantity p.

Definition cart_key (r : cart_item) : Z * Z := (ci_userId r, ci_productId r).

(** UNIQUE (userId, productId), and every cart line holds at least one
    unit. *)
Definition cart_well_formed (s : db) : Prop :=
  NoDup (map cart_key (cart_items s))
  ∧ Forall (λ r, 0 < ci_quantity r) (cart_items s).


(** The quantity the cart holds for a product ([getItemQuantity] without
    the statement). *)
Definition cart_quantity (s : db) (userId productId : Z) : Z :=
  match List.find (cartModel.is_line userId productId) (cart_items s) with
  | Some r => ci_quantity r
  | None => 0
  end.

(** The user's cart as the checkout reads it. *)
Definition cart_of (s : db) (userId : Z) : list cart_line :=
  cartController.mapCartRows
    (omap (cartModel.join_product (products s))
          (List.filter (λ r, ci_userId r =? userId) (cart_items s))).

(** Whether the UPDATE of a turn reaches product [pid] and goes through. *)
Definition decrements (fails : query → bool) (pid : Z) (turn : nat * cart_line)
    : bool :=
  (0 <? quantity turn.2) && (id turn.2 =? pid)
  && negb (fails (DecreaseProduct turn.1 (id turn.2))).

(** The product row after the UPDATEs of some turns, one after the
    other, and after those of [items]. *)
Definition stock_after_turns (fails : query → bool)
    (turns : list (nat * cart_line)) (pid : Z) (p : product) : product :=
  fold_left (λ p turn, if decrements fails pid turn
                       then productModel.decrease (quantity turn.2) p else p)
            turns p.

Definition stock_after (fails : query → bool) (items : list cart_line) (pid : Z)
    (p : product) : product :=
  stock_after_turns fails (indexed items) pid p.

(** The totals the checkout computes from a cart. *)
Definition taxAmount_of (cart : list cart_line) : float :=
  JS.round2 (cartController.subtotal_of cart * cartController.TAX_RATE)%float.

Definition total_of (cart : list cart_line) : float :=
  JS.round2 (cartController.subtotal_of cart + taxAmount_of cart)%float.

(** The order header of a checkout. *)
Definition header_of (userId now : Z) (cart : list cart_line) : order :=
  orderModel.create_row userId ("INV-" +:+ pretty now)
    (orderModel.Totals (Some (cartController.subtotal_of cart))
       (Some (taxAmount_of cart)) (Some (total_of cart)) (NotString false)).

(** The tables after step 4 (the header), step 5 (the lines), step 6
    (the stock) and step 7 (the cart). *)
Definition after_header (userId now : Z) (s : db) : db :=
  Db (products s) (cart_items s)
     (<[orders_auto_increment s := header_of userId now (cart_of s userId)]> (orders s))
     (orders_auto_increment s + 1) (order_items s).

Definition after_lines (userId now : Z) (s : db) : db :=
  Db (products s) (cart_items s)
     (<[orders_auto_increment s := header_of userId now (cart_of s userId)]> (orders s))
     (orders_auto_increment s + 1)
     (order_items s
      ++ map (orderItemModel.row_of (orders_auto_increment s)) (cart_of s userId)).

Definition after_stock (fails : query → bool) (userId now : Z) (s : db) : db :=
  (fold_left (productModel.decrease_one fails) (indexed (cart_of s userId))
             (after_lines userId now s, false)).1.

Definition after_clear (fails : query → bool) (userId now : Z) (s : db) : db :=
  set_cart_items (List.filter (λ r, negb (ci_userId r =? userId)))
                 (after_stock fails userId now s).

(** Whether an UPDATE of step 6 fails. *)
Definition stock_update_fails (fails : query → bool) (cart : list cart_line) : bool :=
  existsb (λ turn, (0 <? quantity turn.2)
                   && fails (DecreaseProduct turn.1 (id turn.2)))
          (indexed cart).



Definition no_faults : query → bool := λ _, false.

(** Scenario B: one product at 10.00, two units of it in user 7's cart. *)
Definition scenario_B (stock : Z) : db :=
  Db {[ 1 := Product "Milk" stock 10%float "milk.png" ]}
     [CartItem 7 1 2] ∅ 1 [].

(** Scenario A: five units in stock, nothing in the cart. *)
Definition scenario_A : db :=
  Db {[ 1 := Product "Milk" 5 10%float "milk.png" ]} [] ∅ 1 [].

(** The statements of a run in which only the bulk INSERT of the order
    lines fails. *)
Definition lines_fail : query → bool :=
  λ q, match q with InsertOrderItems _ => true | _ => false end.

(** Scenario C: an order of 10.90 that the administrator edits. *)
Definition scenario_C : db :=
  Db ∅ [] {[ 1 := Order "INV-1" 7 10%float 0.9%float 10.9%float
                        "Pending for delivery" ]} 2 [].









(* ===================================================================== *)
(** ** The order pages, the administrator's delete, the cart page and the
       route guards *)
(* ===================================================================== *)

(** The statements that the checkout and the order edit do not send. *)
Inductive order_query :=
| SelectOrderOfUser (userId orderId : Z)
| DeleteOrder (orderId : Z)
| DeleteOrderItems (orderId : Z).

(** [db.query] for these statements, as [select] and [execute]. *)
Definition select_order {A} (fails : order_query → bool) (q : order_query)
    (read : db → A) : M A :=
  λ s, if fails q then (s, Err) else (s, Ok (read s)).

Definition execute_order (fails : order_query → bool) (q : order_query)
    (write : db → db) : M unit :=
  λ s, if fails q then (s, Err) else (write s, Ok tt).

(** models/orderModel.js, [getByUserAndId]:
    SELECT ... FROM orders WHERE userId = ? AND id = ?; [rows[0] || null] *)
Definition getByUserAndId (fails : order_query → bool) (userId orderId : Z)
    : M (option order) :=
  select_order fails (SelectOrderOfUser userId orderId)
    (λ s, match orders s !! orderId with
          | Some o => if o_userId o =? userId then Some o else None
          | None => None
          end).

(** models/orderModel.js, [deleteOrder]: DELETE FROM orders WHERE id = ? *)
Definition deleteOrder (fails : order_query → bool) (orderId : Z) : M unit :=
  execute_order fails (DeleteOrder orderId) (orderModel.set_orders (delete orderId)).

(** models/orderItemModel.js, [deleteByOrder]:
    DELETE FROM order_items WHERE orderId = ? *)
Definition deleteByOrder (fails : order_query → bool) (orderId : Z) : M unit :=
  execute_order fails (DeleteOrderItems orderId)
    (λ s, Db (products s) (cart_items s) (orders s) (orders_auto_increment s)
             (List.filter (λ r, negb (oi_orderId r =? orderId)) (order_items s))).

(* --------------------------------------------------------------------- *)
(** *** controllers/orderItemsController.js *)

Module orderItemsController.

(** An item of the [cart] handed to the checkout view:
    {id, productName, price, image: '', quantity, subtotal}. *)
Record invoice_line := InvoiceLine {
  il_id : Z;
  il_productName : string;
  il_price : float;
  il_image : string;
  il_quantity : Z;
  il_subtotal : float
}.

(** What [show] does with [res]; the navigation labels of the view are
    constants and left out. *)
Inductive page :=
| page_send (status : Z) (body : string)
| page_redirect (path : string)
| page_checkout (cart : list invoice_line) (invoiceNumber : string)
    (invoiceDate : Z) (subtotal taxAmount total : option float).

Definition line_of (item : order_item) : invoice_line :=
  InvoiceLine (oi_productId item) (oi_productName item) (oi_unitPrice item)
              EmptyString (oi_quantity item) (oi_subtotal item).

(** [Number.isFinite(stored) ? stored : undefined] *)
Definition finite_or_undefined (stored : float) : option float :=
  if JS.isFinite stored then Some stored else None.

Section WithFaults.
Variable fails : query → bool.
Variable fails_order : order_query → bool.
(** [order.createdAt], the column the server fills: no statement of the
    sources writes it. *)
Variable createdAt : Z → Z.

(** GET /orders/:id; [param_id] is [None] when [Number(req.params.id)] is
    NaN. *)
Definition show (userId : Z) (param_id : option Z) : db → db * page :=
  match param_id with
  | None => λ s, (s, page_redirect "/orders")
  | Some orderId =>
      λ s, match getByUserAndId fails_order userId orderId s with
           | (s1, Err) => (s1, page_send 500 "Database error")
           | (s1, Ok None) => (s1, page_redirect "/orders")
           | (s1, Ok (Some order)) =>
               match orderItemModel.getByOrder fails orderId s1 with
               | (s2, Err) => (s2, page_send 500 "Database error")
               | (s2, Ok items) =>
                   (s2, page_checkout (map line_of items) (o_invoiceNumber order)
                          (createdAt orderId)
                          (finite_or_undefined (o_subtotal order))
                          (finite_or_undefined (o_tax_amount order))
                          (finite_or_undefined (o_total order)))
               end
           end
  end.

End WithFaults.
End orderItemsController.

(* --------------------------------------------------------------------- *)
(** *** controllers/adminOrdersController.js, [remove] *)

Module adminOrders.
Section WithFaults.
Variable fails_order : order_query → bool.

(** POST /admin/orders/:id/delete: the order_items first, then the order. *)
Definition remove (orderId : option Z) : handler :=
  match orderId with
  | None => respond (Reply None (redirect "/admin/orders"))
  | Some orderId =>
      on (deleteByOrder fails_order orderId) database_error (λ _,
      on (deleteOrder fails_order orderId) database_error (λ _,
        respond (Reply (Some ["Order deleted"%string]) (redirect "/admin/orders"))))
  end.

End WithFaults.
End adminOrders.

(* --------------------------------------------------------------------- *)
(** *** controllers/cartController.js, [popMessages] and [view] *)

Module cartPage.

(** [Array.isArray(req.session.messages) ? req.session.messages.splice(0)
     : []]: the messages read, and [req.session.messages] afterwards. *)
Definition popMessages (session_messages : option (list string))
    : list string * option (list string) :=
  match session_messages with
  | Some l => (l, Some [])
  | None => ([], None)
  end.

Inductive page :=
| page_send (status : Z) (body : string)
| render_cart (cart : list cart_line) (messages : list string).

(** GET /cart: the tables, [req.session.messages] afterwards, the page. *)
Definition view (fails : query → bool) (userId : Z)
    (session_messages : option (list string)) (s : db)
    : db * option (list string) * page :=
  let '(messages, remaining) := popMessages session_messages in
  match cartModel.getCartItems fails userId s with
  | (s', Err) => (s', remaining, page_send 500 "Database error")
  | (s', Ok rows) => (s', remaining, render_cart (cartController.mapCartRows rows) messages)
  end.

(** [req.session.messages] after a handler that ended with [r]. *)
Definition session_after (session_messages : option (list string)) (r : reply)
    : option (list string) :=
  match messages r with
  | Some m => Some m
  | None => session_messages
  end.

End cartPage.

(* --------------------------------------------------------------------- *)
(** *** middleware.js and the guarded routes of app.js *)

Module middleware.

(** [req.session.user], as far as the guards and the handlers read it. *)
Record user := User {
  user_id : Z;
  role : string
}.

(** [next] stands for the handler behind the guard, which reads
    [req.session.user]. *)
Definition ensureRole (required : string) (session_user : option user)
    (next : user → handler) : handler :=
  match session_user with
  | None =>
      respond (Reply (Some ["Please log in to continue"%string]) (redirect "/login"))
  | Some u =>
      if negb (String.eqb (role u) required) then
        respond (Reply None
                   (send 403 (if String.eqb required "admin"
                              then "Admins only" else "Users only")%string))
      else next u
  end.

Definition ensureAdmin := ensureRole "admin".
Definition ensureUser := ensureRole "user".

End middleware.

Module app.

(** app.post('/add-to-cart/:id', ensureUser, cartController.add) and the
    other cart routes. *)
Definition cart_routes (fails : query → bool)
    (session_user : option middleware.user) (req : request) : handler :=
  middleware.ensureUser session_user (λ u, route fails (middleware.user_id u) req).

Inductive admin_request :=
| PostAdminOrderEdit (id : option Z) (form : adminOrdersController.edit_form)
| PostAdminOrderDelete (id : option Z).

(** app.post('/admin/orders/:id/edit', ensureAdmin, ...) and
    app.post('/admin/orders/:id/delete', ensureAdmin, ...). *)
Definition admin_order_routes (fails : query → bool)
    (fails_order : order_query → bool)
    (session_user : option middleware.user) (req : admin_request) : handler :=
  middleware.ensureAdmin session_user (λ _,
    match req with
    | PostAdminOrderEdit id form => adminOrdersController.update fails id form
    | PostAdminOrderDelete id => adminOrders.remove fails_order id
    end).

End app.

(* --------------------------------------------------------------------- *)
(** *** What the further properties speak of *)

(** The units that the UPDATEs of some turns, and of [items], take off
    product [pid]. *)
Definition purchased_turns (fails : query → bool) (turns : list (nat * cart_line))
    (pid : Z) : Z :=
  foldr (λ turn total, if decrements fails pid turn
                       then quantity turn.2 + total else total)
        0 turns.

Definition purchased (fails : query → bool) (items : list cart_line) (pid : Z) : Z :=
  purchased_turns fails (indexed items) pid.

(** Every order id is below the AUTO_INCREMENT counter. *)
Definition orders_below_counter (s : db) : Prop :=
  ∀ id o, orders s !! id = Some o → id < orders_auto_increment s.

(** No order line belongs to an order that is yet to be created. *)
Definition lines_below_counter (s : db) : Prop :=
  ∀ r, In r (order_items s) → oi_orderId r < orders_auto_increment s.

(** Two states that differ at most in the stock of their products. *)
Definition same_but_stock (s1 s2 : db) : Prop :=
  cart_items s1 = cart_items s2
  ∧ orders s1 = orders s2
  ∧ orders_auto_increment s1 = orders_auto_increment s2
  ∧ order_items s1 = order_items s2
  ∧ ∀ pid, match products s1 !! pid, products s2 !! pid with
           | Some p1, Some p2 =>
               p_productName p1 = p_productName p2 ∧ p_price p1 = p_price p2
               ∧ p_image p1 = p_image p2
           | None, None => True
           | _, _ => False
           end.


(** Two states that differ at most in the cart table. *)
Definition same_but_cart (s1 s2 : db) : Prop :=
  products s1 = products s2 ∧ orders s1 = orders s2
  ∧ orders_auto_increment s1 = orders_auto_increment s2
  ∧ order_items s1 = order_items s2.

(** No cart line holds more than the product has in stock. *)
Definition cart_within_stock (s : db) : Prop :=
  ∀ u pid p, products s !! pid = Some p → cart_quantity s u pid ≤ p_quantity p.

(** The cart line of a product whose row is rewritten with [fields]. *)
Definition reprice (pid : Z) (fields : product) (l : cart_line) : cart_line :=
  if id l =? pid
  then CartLine pid (p_productName fields) (p_price fields) (p_image fields)
                (quantity l)
  else l.

(** The statements of a run in which only the DELETE of the cart fails. *)
Definition clear_fails : query → bool :=
  λ q, match q with DeleteCart _ => true | _ => false end.

(** What a cart model leaves, as far as the quantities go. *)
Inductive cart_effect (u p : Z) (s : db) : db → Prop :=
| effect_none : cart_effect u p s s
| effect_removed :
    cart_effect u p s
      (set_cart_items (List.filter (λ r, negb (cartModel.is_line u p r))) s)
| effect_written q prod :
    products s !! p = Some prod → 0 < q ≤ p_quantity prod →
    cart_effect u p s (set_cart_items (cartModel.upsert u p q) s).

(* ===================================================================== *)
(** ** Stock decrement *)
(* ===================================================================== *)

Section Decrease.
Variable fails : query → bool.

Lemma indexed_from_items {A} (n : nat) (items : list A) :
  map snd (indexed_from n items) = items.
Proof. revert n; induction items as [|x l IH]; intros n; simpl; [done|]. by rewrite IH. Qed.

Lemma indexed_items {A} (items : list A) : map snd (indexed items) = items.
Proof. apply indexed_from_items. Qed.

Lemma indexed_In {A} (items : list A) (item : A) :
  In item items → ∃ index, In (index, item) (indexed items).
Proof.
  rewrite <- (indexed_items items) at 1. intros ([i x] & <- & Hin)%in_map_iff.
  by exists i.
Qed.

Lemma decrease_one_tables acc turn :
  let acc' := productModel.decrease_one fails acc turn in
  cart_items acc'.1 = cart_items acc.1
  ∧ orders acc'.1 = orders acc.1
  ∧ orders_auto_increment acc'.1 = orders_auto_increment acc.1
  ∧ order_items acc'.1 = order_items acc.1.
Proof.
  destruct acc as [s e], turn as [index item];
    unfold productModel.decrease_one; simpl.
  destruct (quantity item <=? 0); [done|].
  destruct (fails _); done.
Qed.

Lemma fold_decrease_tables_turns turns acc :
  let acc' := fold_left (productModel.decrease_one fails) turns acc in
  cart_items acc'.1 = cart_items acc.1
  ∧ orders acc'.1 = orders acc.1
  ∧ orders_auto_increment acc'.1 = orders_auto_increment acc.1
  ∧ order_items acc'.1 = order_items acc.1.
Proof.
  revert acc; induction turns as [|turn turns IH]; intros acc; simpl; [done|].
  destruct (IH (productModel.decrease_one fails acc turn)) as (-> & -> & -> & ->).
  apply decrease_one_tables.
Qed.

Lemma fold_decrease_tables items acc :
  let acc' := fold_left (productModel.decrease_one fails) (indexed items) acc in
  cart_items acc'.1 = cart_items acc.1
  ∧ orders acc'.1 = orders acc.1
  ∧ orders_auto_increment acc'.1 = orders_auto_increment acc.1
  ∧ order_items acc'.1 = order_items acc.1.
Proof. apply fold_decrease_tables_turns. Qed.

Lemma decrease_one_products acc turn pid :
  products (productModel.decrease_one fails acc turn).1 !! pid
  = (λ p, if decrements fails pid turn
          then productModel.decrease (quantity turn.2) p else p)
      <$> products acc.1 !! pid.
Proof.
  destruct acc as [s e], turn as [index item];
    unfold productModel.decrease_one, decrements; simpl.
  destruct (Z.leb_spec (quantity item) 0) as [Hq|Hq].
  - replace (0 <? quantity item) with false by (symmetry; apply Z.ltb_ge; lia).
    simpl. by destruct (products s !! pid).
  - replace (0 <? quantity item) with true by (symmetry; apply Z.ltb_lt; lia).
    destruct (fails _); simpl.
    + rewrite andb_false_r. by destruct (products s !! pid).
    + rewrite andb_true_r. destruct (Z.eqb_spec (id item) pid) as [->|Hne].
      * by rewrite lookup_alter_eq.
      * rewrite lookup_alter_ne by done. by destruct (products s !! pid).
Qed.

Lemma fold_decrease_products_turns turns acc pid :
  products (fold_left (productModel.decrease_one fails) turns acc).1 !! pid
  = stock_after_turns fails turns pid <$> products acc.1 !! pid.
Proof.
  revert acc; induction turns as [|turn turns IH]; intros acc; simpl.
  - by destruct (products acc.1 !! pid).
  - rewrite IH, decrease_one_products. by destruct (products acc.1 !! pid).
Qed.

Lemma fold_decrease_products items acc pid :
  products (fold_left (productModel.decrease_one fails) (indexed items) acc).1 !! pid
  = stock_after fails items pid <$> products acc.1 !! pid.
Proof. apply fold_decrease_products_turns. Qed.

Lemma fold_decrease_error_turns turns acc :
  (fold_left (productModel.decrease_one fails) turns acc).2
  = acc.2 || existsb (λ turn, (0 <? quantity turn.2)
                              && fails (DecreaseProduct turn.1 (id turn.2))) turns.
Proof.
  revert acc; induction turns as [|[index item] turns IH]; intros [s e]; simpl.
  - by rewrite orb_false_r.
  - rewrite IH. unfold productModel.decrease_one.
    destruct (Z.leb_spec (quantity item) 0) as [Hq|Hq].
    + replace (0 <? quantity item) with false by (symmetry; apply Z.ltb_ge; lia).
      done.
    + replace (0 <? quantity item) with true by (symmetry; apply Z.ltb_lt; lia).
      destruct (fails _); simpl; [|done]. by rewrite orb_true_r.
Qed.

Lemma fold_decrease_error items acc :
  (fold_left (productModel.decrease_one fails) (indexed items) acc).2
  = acc.2 || stock_update_fails fails items.
Proof. apply fold_decrease_error_turns. Qed.

Lemma decrease_nonneg qty p : 0 ≤ p_quantity (productModel.decrease qty p).
Proof. simpl. lia. Qed.

Lemma stock_after_turns_nonneg turns pid p :
  0 ≤ p_quantity p → 0 ≤ p_quantity (stock_after_turns fails turns pid p).
Proof.
  revert p; induction turns as [|turn turns IH]; intros p Hp; simpl; [done|].
  apply IH. destruct (decrements fails pid turn); [apply decrease_nonneg|done].
Qed.

Lemma stock_after_nonneg items pid p :
  0 ≤ p_quantity p → 0 ≤ p_quantity (stock_after fails items pid p).
Proof. apply stock_after_turns_nonneg. Qed.

Lemma stock_after_turns_untouched turns pid p :
  (∀ turn, In turn turns → decrements fails pid turn = false) →
  stock_after_turns fails turns pid p = p.
Proof.
  revert p; induction turns as [|turn turns IH]; intros p H; simpl; [done|].
  rewrite (H turn) by (by left). apply IH. intros; apply H; by right.
Qed.

Lemma stock_after_turns_unique turns index item p :
  NoDup (map id (map snd turns)) → In (index, item) turns → 0 < quantity item →
  fails (DecreaseProduct index (id item)) = false →
  stock_after_turns fails turns (id item) p
  = productModel.decrease (quantity item) p.
Proof.
  revert p; induction turns as [|x turns IH]; intros p Hnd Hin Hq Hf; [done|].
  simpl in Hnd; apply NoDup_cons in Hnd as [Hx Hnd].
  destruct Hin as [->|Hin]; simpl.
  - replace (decrements fails (id item) (index, item)) with true.
    2:{ unfold decrements. cbn [fst snd]. rewrite Hf, Z.eqb_refl.
        by replace (0 <? quantity item) with true
          by (symmetry; apply Z.ltb_lt; lia). }
    apply stock_after_turns_untouched. intros y Hy. unfold decrements.
    destruct (Z.eqb_spec (id y.2) (id item)) as [Heq|]; [|by rewrite andb_false_r].
    exfalso; apply Hx. cbn [snd]. rewrite <- Heq.
    apply list_elem_of_In, in_map, in_map, Hy.
  - replace (decrements fails (id item) x) with false; [by apply IH|].
    unfold decrements. destruct (Z.eqb_spec (id x.2) (id item)) as [Heq|];
      [|by rewrite andb_false_r].
    exfalso; apply Hx. rewrite Heq.
    apply list_elem_of_In. apply (in_map id).
    by apply (in_map snd) in Hin.
Qed.

Lemma stock_after_unique items item p :
  NoDup (map id items) → In item items → 0 < quantity item →
  stock_update_fails fails items = false →
  stock_after fails items (id item) p
  = productModel.decrease (quantity item) p.
Proof.
  intros Hnd Hin Hq Hup. destruct (indexed_In items item Hin) as [index Hturn].
  apply (stock_after_turns_unique _ index); [by rewrite indexed_items|done..|].
  destruct (fails (DecreaseProduct index (id item))) eqn:Hf; [|done].
  exfalso. unfold stock_update_fails in Hup.
  assert (existsb (λ turn, (0 <? quantity turn.2)
                           && fails (DecreaseProduct turn.1 (id turn.2)))
                  (indexed items) = true) as Habs; [|by rewrite Habs in Hup].
  apply existsb_exists. exists (index, item). split; [done|]. cbn [fst snd].
  rewrite Hf, andb_true_r. by apply Z.ltb_lt.
Qed.

End Decrease.

(* ===================================================================== *)
(** ** The cart as the checkout reads it *)
(* ===================================================================== *)

Lemma mapCartRows_ids rows :
  map id (cartController.mapCartRows rows) = map id rows.
Proof. unfold cartController.mapCartRows. rewrite map_map. done. Qed.

Lemma joined_ids_in_cart ps userId rows pid :
  In pid (map id (omap (cartModel.join_product ps)
                       (List.filter (λ r, ci_userId r =? userId) rows))) →
  In (userId, pid) (map cart_key rows).
Proof.
  induction rows as [|r rows IH]; simpl; [done|].
  destruct (Z.eqb_spec (ci_userId r) userId) as [Hu|Hu]; simpl.
  - unfold cartModel.join_product at 1.
    destruct (ps !! ci_productId r); simpl.
    + intros [<-|H]; [left; unfold cart_key; by rewrite Hu|right; by apply IH].
    + intros H; right; by apply IH.
  - intros H; right; by apply IH.
Qed.

Lemma cart_of_ids_NoDup s userId :
  NoDup (map cart_key (cart_items s)) → NoDup (map id (cart_of s userId)).
Proof.
  unfold cart_of. rewrite mapCartRows_ids.
  generalize (cart_items s) as rows.
  induction rows as [|r rows IH]; simpl; intros Hnd; [constructor|].
  apply NoDup_cons in Hnd as [Hr Hnd].
  destruct (Z.eqb_spec (ci_userId r) userId) as [Hu|Hu]; simpl; [|by apply IH].
  unfold cartModel.join_product at 1.
  destruct (products s !! ci_productId r); simpl; [|by apply IH].
  apply NoDup_cons; split; [|by apply IH].
  intros Hin; apply Hr. apply list_elem_of_In in Hin.
  apply joined_ids_in_cart in Hin. apply list_elem_of_In.
  unfold cart_key at 1. by rewrite Hu.
Qed.

Lemma cart_of_nil s userId :
  (∀ r, In r (cart_items s) → ci_userId r ≠ userId) → cart_of s userId = [].
Proof.
  unfold cart_of. generalize (cart_items s) as rows.
  induction rows as [|r rows IH]; simpl; intros H; [done|].
  destruct (Z.eqb_spec (ci_userId r) userId) as [Hu|Hu].
  - exfalso. by apply (H r); [left|].
  - apply IH. intros; apply H; by right.
Qed.

(* ===================================================================== *)
(** ** The checkout pipeline, step by step *)
(* ===================================================================== *)

Lemma checkout_steps fails userId now s :
  cartController.checkout fails userId now s =
  if fails (SelectCart userId) then (s, database_error)
  else match cart_of s userId with
       | [] => (s, Reply (Some ["Your cart is empty."%string]) (redirect "/cart"))
       | _ :: _ =>
           if fails (InsertOrder userId) then (s, database_error)
           else if fails (InsertOrderItems (orders_auto_increment s))
           then (after_header userId now s, database_error)
           else if stock_update_fails fails (cart_of s userId)
           then (after_stock fails userId now s, database_error)
           else if fails (DeleteCart userId)
           then (after_stock fails userId now s, database_error)
           else (after_clear fails userId now s,
                 Reply None (render_checkout (cart_of s userId) now
                               ("INV-" +:+ pretty now)
                               (cartController.subtotal_of (cart_of s userId))
                               (taxAmount_of (cart_of s userId))
                               (total_of (cart_of s userId))))
       end.
Proof.
  unfold cartController.checkout, on, cartModel.getCartItems, select.
  destruct (fails (SelectCart userId)); [done|].
  fold (cart_of s userId).
  unfold after_clear, after_stock, after_lines, after_header, header_of.
  destruct (cart_of s userId) as [|item cart]; [done|].
  unfold orderModel.create. destruct (fails (InsertOrder userId)); [done|].
  unfold orderItemModel.createMany, execute.
  destruct (fails (InsertOrderItems _)); [done|].
  unfold productModel.decreaseQuantities; cbv beta iota zeta.
  cbn [products cart_items orders orders_auto_increment order_items].
  fold (taxAmount_of (item :: cart)). fold (total_of (item :: cart)).
  set (s2 := Db _ _ _ _ (order_items s ++ _)).
  pose proof (fold_decrease_error fails (item :: cart) (s2, false)) as He.
  destruct (fold_left _ (indexed (item :: cart)) (s2, false)) as [s3 e] eqn:Hfold.
  cbn [fst snd orb] in He. rewrite <- He.
  destruct e; [done|].
  unfold cartModel.clearCart, execute, respond.
  destruct (fails (DeleteCart userId)); done.
Qed.

(* ===================================================================== *)
(** ** Invariants of the shopper's routes *)
(* ===================================================================== *)

Lemma on_fst {A} (m : M A) failed k s :
  (on m failed k s).1
  = match (m s).2 with Ok a => (k a (m s).1).1 | Err => (m s).1 end.
Proof. unfold on. by destruct (m s) as [s' [a|]]. Qed.

(** Step into the call of a cart model that ends a handler, keeping what
    [lem] says about the tables it leaves. *)
Ltac into_cart_model lem :=
  rewrite on_fst;
  match goal with
  | |- context [cartModel.setQuantity ?f ?u ?p ?x ?s] =>
      pose proof (lem u p x s) as ?;
      destruct (cartModel.setQuantity f u p x s) as [? [[]|]]
  | |- context [cartModel.removeItem ?f ?u ?p ?s] =>
      pose proof (lem u p s) as ?;
      destruct (cartModel.removeItem f u p s) as [? [[]|]]
  | |- context [cartModel.clearCart ?f ?u ?s] =>
      pose proof (lem u s) as ?;
      destruct (cartModel.clearCart f u s) as [? [[]|]]
  end;
  simpl in *.

Section Invariants.
Variable fails : query → bool.

Lemma removeItem_products u p s :
  products (cartModel.removeItem fails u p s).1 = products s.
Proof. unfold cartModel.removeItem, execute. by destruct (fails _). Qed.

Lemma setQuantity_products u p q s :
  products (cartModel.setQuantity fails u p q s).1 = products s.
Proof.
  unfold cartModel.setQuantity.
  destruct (JS.num_leb q (JS.Fin 0)); [apply removeItem_products|].
  destruct q; try done. unfold execute. by destruct (fails _).
Qed.

Lemma clearCart_products u s :
  products (cartModel.clearCart fails u s).1 = products s.
Proof. unfold cartModel.clearCart, execute. by destruct (fails _). Qed.

Lemma add_products u p q t s :
  products (cartController.add fails u p q t s).1 = products s.
Proof.
  unfold cartController.add. rewrite on_fst.
  unfold productModel.getById, select. destruct (fails (SelectProduct p)); [done|].
  simpl. destruct (products s !! p) as [prod|]; [|done].
  destruct (p_quantity prod <=? 0); [done|].
  rewrite on_fst. unfold cartModel.getItemQuantity, select.
  destruct (fails (SelectCartQuantity u p)); [done|]. simpl.
  match goal with |- context [if ?b then _ else _] => destruct b end; [done|].
  into_cart_model setQuantity_products; done.
Qed.

Lemma updateQuantity_products u p q s :
  products (cartController.updateQuantity fails u p q s).1 = products s.
Proof.
  unfold cartController.updateQuantity. rewrite on_fst.
  unfold productModel.getById, select. destruct (fails (SelectProduct p)); [done|].
  simpl. destruct (products s !! p) as [prod|]; [|done].
  destruct (p_quantity prod <=? 0).
  - into_cart_model removeItem_products; done.
  - into_cart_model setQuantity_products; done.
Qed.

Lemma after_stock_products u now s pid :
  products (after_stock fails u now s) !! pid
  = stock_after fails (cart_of s u) pid <$> products s !! pid.
Proof. unfold after_stock. by rewrite fold_decrease_products. Qed.

Lemma stock_after_keeps_floor items s s' :
  (∀ pid, products s' !! pid = stock_after fails items pid <$> products s !! pid) →
  stock_nonneg s → stock_nonneg s'.
Proof.
  intros H Hs pid p'. rewrite H.
  destruct (products s !! pid) as [p|] eqn:Hp; simpl; [|done].
  intros [= <-]. apply stock_after_nonneg. by apply (Hs pid).
Qed.

Lemma decreaseQuantities_keeps_floor items s :
  stock_nonneg s → stock_nonneg (productModel.decreaseQuantities fails items s).1.
Proof.
  unfold productModel.decreaseQuantities. destruct items as [|i items]; [done|].
  destruct (fold_left _ (indexed (i :: items)) (s, false)) as [s' e] eqn:E.
  apply (stock_after_keeps_floor (i :: items)). intros pid.
  change s' with (s', e).1. rewrite <- E. apply fold_decrease_products.
Qed.

Lemma checkout_keeps_floor u now s :
  stock_nonneg s → stock_nonneg (cartController.checkout fails u now s).1.
Proof.
  intros Hs. rewrite checkout_steps.
  destruct (fails (SelectCart u)); [done|].
  destruct (cart_of s u) as [|i cart] eqn:Hc; [done|].
  destruct (fails (InsertOrder u)); [done|].
  destruct (fails (InsertOrderItems _)); [done|].
  assert (stock_nonneg (after_stock fails u now s)) as Hafter.
  { apply (stock_after_keeps_floor (cart_of s u) s); [|done].
    intros; apply after_stock_products. }
  destruct (stock_update_fails fails _); [done|].
  destruct (fails (DeleteCart u)); done.
Qed.

Lemma route_keeps_floor u req s :
  stock_nonneg s → stock_nonneg (route fails u req s).1.
Proof.
  intros Hs. destruct req as [rid q t|rid|rid q| |now]; simpl.
  - intros pid p. by rewrite add_products; apply Hs.
  - intros pid p. unfold cartController.remove.
    into_cart_model removeItem_products; by rewrite H; apply Hs.
  - intros pid p. by rewrite updateQuantity_products; apply Hs.
  - intros pid p. unfold cartController.clear.
    into_cart_model clearCart_products; by rewrite H; apply Hs.
  - by apply checkout_keeps_floor.
Qed.

End Invariants.

Lemma cart_of_positive s u item :
  Forall (λ r, 0 < ci_quantity r) (cart_items s) →
  In item (cart_of s u) → 0 < quantity item.
Proof.
  unfold cart_of, cartController.mapCartRows. intros Hpos Hin.
  apply in_map_iff in Hin as (row & <- & Hin). simpl.
  destruct (Z.eqb_spec (quantity row) 0) as [|Hne]; [lia|].
  apply list_elem_of_In, list_elem_of_omap in Hin as (r & Hr & Hj).
  apply list_elem_of_In, filter_In in Hr as [Hr _].
  rewrite Forall_forall in Hpos. apply list_elem_of_In, Hpos in Hr.
  unfold cartModel.join_product in Hj.
  destruct (products s !! ci_productId r); [|done].
  injection Hj as <-. done.
Qed.

Lemma cart_of_joined s u item :
  In item (cart_of s u) → ∃ p, products s !! id item = Some p.
Proof.
  unfold cart_of, cartController.mapCartRows. intros Hin.
  apply in_map_iff in Hin as (row & <- & Hin). simpl.
  apply list_elem_of_In, list_elem_of_omap in Hin as (r & Hr & Hj).
  unfold cartModel.join_product in Hj.
  destruct (products s !! ci_productId r) as [p|] eqn:Hp; [|done].
  injection Hj as <-. by exists p.
Qed.

(* ===================================================================== *)
(** ** C1: the stock floor *)
(* ===================================================================== *)

Lemma scenario_B_well_formed stock : cart_well_formed (scenario_B stock).
Proof.
  split; simpl.
  - apply NoDup_singleton.
  - repeat constructor.
Qed.

Lemma scenario_B_floor stock : 0 ≤ stock → stock_nonneg (scenario_B stock).
Proof.
  intros H pid p. simpl. intros [_ <-]%lookup_singleton_Some. done.
Qed.

(** C1, as amended.  From tables where the cart is well formed and no
    stock is negative: every route of the shopper (add, remove, update,
    clear, checkout), whatever statements fail, leaves no stock negative,
    and so does [decreaseQuantities] on any list of items; and after a
    checkout that rendered the checkout page, every line of the purchased
    cart has its product at max(0, previousStock - quantity).  (The
    administrator's product form is not among these operations.) *)
Theorem checkout_floors_stock (fails : query → bool) (userId : Z) (s : db) :
  cart_well_formed s → stock_nonneg s →
  (∀ req, stock_nonneg (route fails userId req s).1)
  ∧ (∀ items, stock_nonneg (productModel.decreaseQuantities fails items s).1)
  ∧ (∀ now s' m cart date inv sub tax tot,
       cartController.checkout fails userId now s
       = (s', Reply m (render_checkout cart date inv sub tax tot)) →
       ∀ item, In item cart →
         ∃ p p', products s !! id item = Some p
                 ∧ products s' !! id item = Some p'
                 ∧ p_quantity p' = Z.max 0 (p_quantity p - quantity item)).
Proof.
  intros [Hnd Hpos] Hs. split; [|split].
  - intros req. by apply route_keeps_floor.
  - intros items. by apply decreaseQuantities_keeps_floor.
  - intros now s' m cart date inv sub tax tot Hco item Hin.
    rewrite checkout_steps in Hco.
    destruct (fails (SelectCart userId)); [done|].
    destruct (cart_of s userId) as [|i0 c0] eqn:Hc; [done|].
    destruct (fails (InsertOrder userId)); [done|].
    destruct (fails (InsertOrderItems _)); [done|].
    destruct (stock_update_fails fails (i0 :: c0)) eqn:Hup; [done|].
    destruct (fails (DeleteCart userId)); [done|].
    injection Hco as <- _ <- _ _ _ _ _. rewrite <- Hc in *.
    destruct (cart_of_joined s userId item Hin) as [p Hp].
    exists p, (productModel.decrease (quantity item) p).
    split; [done|]. split; [|simpl; lia].
    unfold after_clear, set_cart_items; simpl.
    rewrite after_stock_products, Hp; simpl. f_equal.
    apply stock_after_unique.
    + by apply cart_of_ids_NoDup.
    + done.
    + by apply (cart_of_positive s userId).
    + done.
Qed.

(** The instance of C1 on scenario B with five units in stock: the
    checkout leaves three. *)
Lemma checkout_floors_stock_witness :
  cart_well_formed (scenario_B 5) ∧ stock_nonneg (scenario_B 5)
  ∧ ∃ p', products (cartController.checkout no_faults 7 1700000000000
                      (scenario_B 5)).1 !! 1 = Some p'
          ∧ p_quantity p' = 3.
Proof.
  split; [apply scenario_B_well_formed|].
  split; [by apply scenario_B_floor|].
  destruct (checkout_floors_stock no_faults 7 (scenario_B 5)
              (scenario_B_well_formed 5) (scenario_B_floor 5 ltac:(lia)))
    as (_ & _ & H).
  destruct (cartController.checkout no_faults 7 1700000000000 (scenario_B 5))
    as [s' [m r]] eqn:E.
  assert (∃ cart date inv sub tax tot,
            r = render_checkout cart date inv sub tax tot
            ∧ In (CartLine 1 "Milk" 10%float "milk.png" 2) cart)
    as (cart & date & inv & sub & tax & tot & -> & Hin).
  { vm_compute in E. injection E as _ _ <-. repeat eexists. by left. }
  destruct (H _ _ _ _ _ _ _ _ _ E _ Hin) as (p & p' & Hp & Hp' & Hq).
  exists p'. split; [done|].
  simpl in Hp. apply lookup_singleton_Some in Hp as [_ <-]. exact Hq.
Defined.

(** C1 as stated fails on "every operation": the product form of the
    administrator writes the quantity it is given.  From a stock of 5,
    [update] with quantity -5 leaves -5. *)
Lemma admin_update_writes_negative_stock :
  stock_nonneg (scenario_B 5)
  ∧ ∃ p', products (productModel.update no_faults 1
                      (Product "Milk" (-5) 10%float "milk.png")
                      (scenario_B 5)).1 !! 1 = Some p'
          ∧ p_quantity p' < 0.
Proof.
  split; [by apply scenario_B_floor|].
  eexists. split; [vm_compute; reflexivity|]. simpl. lia.
Qed.

(* ===================================================================== *)
(** ** C2: forward pricing at checkout *)
(* ===================================================================== *)

Lemma after_clear_orders fails userId now s :
  orders (after_clear fails userId now s)
  = <[orders_auto_increment s := header_of userId now (cart_of s userId)]> (orders s).
Proof.
  unfold after_clear, after_stock; simpl.
  by destruct (fold_decrease_tables fails (cart_of s userId)
                 (after_lines userId now s, false)) as (_ & -> & _).
Qed.

Lemma after_clear_order_items fails userId now s :
  order_items (after_clear fails userId now s)
  = order_items s
    ++ map (orderItemModel.row_of (orders_auto_increment s)) (cart_of s userId).
Proof.
  unfold after_clear, after_stock; simpl.
  by destruct (fold_decrease_tables fails (cart_of s userId)
                 (after_lines userId now s, false)) as (_ & _ & _ & ->).
Qed.

Lemma after_clear_cart fails userId now s :
  cart_items (after_clear fails userId now s)
  = List.filter (λ r, negb (ci_userId r =? userId)) (cart_items s).
Proof.
  unfold after_clear, after_stock; simpl.
  by destruct (fold_decrease_tables fails (cart_of s userId)
                 (after_lines userId now s, false)) as (-> & _).
Qed.

Lemma after_clear_cart_of fails userId now s :
  cart_of (after_clear fails userId now s) userId = [].
Proof.
  apply cart_of_nil. intros r. rewrite after_clear_cart.
  intros [_ Hr]%filter_In. by destruct (Z.eqb_spec (ci_userId r) userId).
Qed.

Lemma checkout_succeeds fails userId now s :
  (∀ q, fails q = false) → cart_of s userId ≠ [] →
  cartController.checkout fails userId now s
  = (after_clear fails userId now s,
     Reply None (render_checkout (cart_of s userId) now ("INV-" +:+ pretty now)
                   (cartController.subtotal_of (cart_of s userId))
                   (taxAmount_of (cart_of s userId))
                   (total_of (cart_of s userId)))).
Proof.
  intros Hf Hne. rewrite checkout_steps, !Hf.
  destruct (cart_of s userId) as [|i c] eqn:Hc; [done|].
  replace (stock_update_fails fails (i :: c)) with false; [done|].
  symmetry. unfold stock_update_fails. apply not_true_is_false.
  intros (x & _ & Hx)%existsb_exists. by rewrite Hf, andb_false_r in Hx.
Qed.

(** C2, as amended.  With no failing statement and a cart that is not
    empty, the checkout renders the page with subtotal = the left-to-right
    sum of price * quantity over the cart, taxAmount = round2 (subtotal *
    0.09) and total = round2 (subtotal + taxAmount); the order row holds
    these amounts as [formatMoney] stores them, and the user's cart is
    empty afterwards.  For the cart [{price: 10.00, quantity: 2}] the
    amounts are 20, 1.8 and 21.8, the order row holds exactly these, and
    the product's stock becomes max(stock - 2, 0), whatever the stock was:
    the checkout does not look at it, and takes two units off only where
    two are there. *)
Theorem forward_pricing (fails : query → bool) (userId now : Z) (s : db) :
  (∀ q, fails q = false) → cart_of s userId ≠ [] →
  let cart := cart_of s userId in
  let subtotal := cartController.subtotal_of cart in
  let taxAmount := JS.round2 (subtotal * 0.09)%float in
  let total := JS.round2 (subtotal + taxAmount)%float in
  let s' := (cartController.checkout fails userId now s).1 in
  (cartController.checkout fails userId now s).2
  = Reply None (render_checkout cart now ("INV-" +:+ pretty now)
                                subtotal taxAmount total)
  ∧ (∃ o, orders s' !! orders_auto_increment s = Some o
          ∧ o_subtotal o = orderModel.formatMoney (Some subtotal)
          ∧ o_tax_amount o = orderModel.formatMoney (Some taxAmount)
          ∧ (JS.isFinite total = true
             → o_total o = orderModel.formatMoney (Some total)))
  ∧ cart_of s' userId = []
  ∧ (∀ pid name img stock,
       cart = [CartLine pid name 10%float img 2] →
       products s !! pid = Some (Product name stock 10%float img) →
       subtotal = 20%float ∧ taxAmount = 1.8%float ∧ total = 21.8%float
       ∧ orders s' !! orders_auto_increment s
         = Some (Order ("INV-" +:+ pretty now) userId 20%float 1.8%float
                       21.8%float "Pending for delivery")
       ∧ products s' !! pid
         = Some (Product name (Z.max (stock - 2) 0) 10%float img)).
Proof.
  intros Hf Hne cart subtotal taxAmount total s'.
  unfold s'. rewrite (checkout_succeeds fails userId now s Hf Hne).
  cbn [fst snd]. split; [done|]. split; [|split].
  - exists (header_of userId now cart). rewrite after_clear_orders.
    split; [by rewrite lookup_insert_eq|]. split; [done|]. split; [done|].
    intros Hfin. unfold header_of, orderModel.create_row; simpl.
    fold subtotal. fold (taxAmount_of cart). fold (total_of cart).
    change (total_of cart) with total. by rewrite Hfin.
  - apply after_clear_cart_of.
  - intros pid name img stock Hcart Hp.
    assert (subtotal = 20%float) as Hsub
      by (unfold subtotal; rewrite Hcart; vm_compute; reflexivity).
    assert (taxAmount = 1.8%float) as Htax
      by (unfold taxAmount; rewrite Hsub; vm_compute; reflexivity).
    assert (total = 21.8%float) as Htot
      by (unfold total; rewrite Hsub, Htax; vm_compute; reflexivity).
    split; [done|]. split; [done|]. split; [done|]. split.
    + rewrite after_clear_orders, lookup_insert_eq. f_equal.
      unfold header_of, orderModel.create_row; cbn [orderModel.t_subtotal
        orderModel.t_taxAmount orderModel.t_total orderModel.t_status default].
      fold cart. fold subtotal. fold (taxAmount_of cart). fold (total_of cart).
      change (taxAmount_of cart) with taxAmount.
      change (total_of cart) with total.
      rewrite Hsub, Htax, Htot. vm_compute. reflexivity.
    + unfold after_clear, set_cart_items; cbn [products].
      rewrite after_stock_products, Hp. fold cart. rewrite Hcart.
      unfold stock_after, indexed, indexed_from, stock_after_turns, decrements.
      cbn [fold_left fst snd id quantity fmap option_fmap option_map].
      rewrite Z.eqb_refl, Hf. done.
Qed.

(** The instance of C2 on scenario B. *)
Lemma forward_pricing_witness :
  (cartController.checkout no_faults 7 1700000000000 (scenario_B 5)).2
  = Reply None (render_checkout [CartLine 1 "Milk" 10%float "milk.png" 2]
                  1700000000000 "INV-1700000000000" 20%float 1.8%float
                  21.8%float)
  ∧ products (cartController.checkout no_faults 7 1700000000000
                (scenario_B 5)).1 !! 1
    = Some (Product "Milk" 3 10%float "milk.png").
Proof.
  pose proof (forward_pricing no_faults 7 1700000000000 (scenario_B 5)
                (λ _, eq_refl) ltac:(vm_compute; discriminate)) as H.
  cbv zeta in H. destruct H as (Hr & _ & _ & HB).
  destruct (HB 1 "Milk"%string "milk.png"%string 5 eq_refl eq_refl)
    as (Hsub & Htax & Htot & _ & Hp).
  split.
  - rewrite Hr. rewrite Htot, Htax, Hsub. reflexivity.
  - exact Hp.
Defined.

(** C2 as stated fails on "decreases that product's stock by 2": from
    scenario B with one unit in stock the checkout goes through with the
    same amounts, and the stock goes from 1 to 0, not down by 2. *)
Lemma checkout_of_two_units_from_a_stock_of_one :
  let out := cartController.checkout no_faults 7 1700000000000 (scenario_B 1) in
  out.2 = Reply None (render_checkout [CartLine 1 "Milk" 10%float "milk.png" 2]
                        1700000000000 "INV-1700000000000" 20%float 1.8%float
                        21.8%float)
  ∧ ∃ p', products out.1 !! 1 = Some p' ∧ p_quantity p' = 0
          ∧ p_quantity p' ≠ 1 - 2.
Proof.
  split; [by vm_compute|]. eexists. split; [by vm_compute|]. by split.
Qed.

(* ===================================================================== *)
(** ** The cart table under [setQuantity], [removeItem] and [clearCart] *)
(* ===================================================================== *)

Lemma is_line_spec u p r :
  cartModel.is_line u p r = true ↔ cart_key r = (u, p).
Proof.
  unfold cartModel.is_line, cart_key. rewrite andb_true_iff, !Z.eqb_eq.
  split; [by intros [-> ->]|by intros [= -> ->]].
Qed.

Lemma find_upsert_same u p q rows :
  List.find (cartModel.is_line u p) (cartModel.upsert u p q rows)
  = Some (CartItem u p q).
Proof.
  assert (cartModel.is_line u p (CartItem u p q) = true) as Hself
    by (apply is_line_spec; done).
  induction rows as [|r rows IH]; simpl; [by rewrite Hself|].
  destruct (cartModel.is_line u p r) eqn:Hr; simpl; [by rewrite Hself|].
  by rewrite Hr.
Qed.

Lemma find_upsert_other u p q u' p' rows :
  (u', p') ≠ (u, p) →
  List.find (cartModel.is_line u' p') (cartModel.upsert u p q rows)
  = List.find (cartModel.is_line u' p') rows.
Proof.
  intros Hne.
  assert (cartModel.is_line u' p' (CartItem u p q) = false) as Hnew.
  { apply not_true_is_false. intros H%is_line_spec. by injection H as -> ->. }
  induction rows as [|r rows IH]; simpl; [by rewrite Hnew|].
  destruct (cartModel.is_line u p r) eqn:Hr; simpl.
  - rewrite Hnew. replace (cartModel.is_line u' p' r) with false; [done|].
    symmetry. apply not_true_is_false. intros H%is_line_spec.
    apply is_line_spec in Hr. congruence.
  - by rewrite IH.
Qed.

Lemma upsert_keys u p q rows k :
  In k (map cart_key (cartModel.upsert u p q rows)) →
  k = (u, p) ∨ In k (map cart_key rows).
Proof.
  induction rows as [|r rows IH]; simpl.
  - intros [<-|[]]. by left.
  - destruct (cartModel.is_line u p r) eqn:Hr; simpl.
    + intros [<-|H]; [by left|by right; right].
    + intros [<-|H]; [by right; left|]. destruct (IH H); [by left|by right; right].
Qed.

Lemma upsert_well_formed u p q rows :
  0 < q →
  NoDup (map cart_key rows) ∧ Forall (λ r, 0 < ci_quantity r) rows →
  NoDup (map cart_key (cartModel.upsert u p q rows))
  ∧ Forall (λ r, 0 < ci_quantity r) (cartModel.upsert u p q rows).
Proof.
  intros Hq. induction rows as [|r rows IH]; simpl; intros [Hnd Hpos].
  - split; [apply NoDup_singleton|by repeat constructor].
  - apply NoDup_cons in Hnd as [Hr Hnd]. apply Forall_cons in Hpos as [Hr' Hpos].
    destruct (cartModel.is_line u p r) eqn:Hl; simpl.
    + apply is_line_spec in Hl. split; [|by constructor].
      apply NoDup_cons. split; [|done]. unfold cart_key at 1; simpl.
      by rewrite <- Hl.
    + destruct (IH (conj Hnd Hpos)) as [IH1 IH2]. split; [|by constructor].
      apply NoDup_cons. split; [|done].
      intros Hin%list_elem_of_In%upsert_keys. destruct Hin as [Heq|Hin].
      * apply is_line_spec in Heq. congruence.
      * by apply Hr, list_elem_of_In.
Qed.

Lemma filter_well_formed (keep : cart_item → bool) rows :
  NoDup (map cart_key rows) ∧ Forall (λ r, 0 < ci_quantity r) rows →
  NoDup (map cart_key (List.filter keep rows))
  ∧ Forall (λ r, 0 < ci_quantity r) (List.filter keep rows).
Proof.
  induction rows as [|r rows IH]; simpl; intros [Hnd Hpos]; [done|].
  apply NoDup_cons in Hnd as [Hr Hnd]. apply Forall_cons in Hpos as [Hr' Hpos].
  destruct (IH (conj Hnd Hpos)) as [IH1 IH2].
  destruct (keep r); simpl; [|done]. split; [|by constructor].
  apply NoDup_cons. split; [|done].
  intros Hin%list_elem_of_In%in_map_iff. destruct Hin as (x & Hx & Hin).
  apply filter_In in Hin as [Hin _]. apply Hr, list_elem_of_In.
  rewrite <- Hx. by apply in_map.
Qed.

Lemma find_filter_out u p rows :
  List.find (cartModel.is_line u p)
    (List.filter (λ r, negb (cartModel.is_line u p r)) rows) = None.
Proof.
  induction rows as [|r rows IH]; simpl; [done|].
  destruct (cartModel.is_line u p r) eqn:Hr; simpl; [done|]. by rewrite Hr.
Qed.

Lemma cart_quantity_nonneg s u p :
  cart_well_formed s → 0 ≤ cart_quantity s u p.
Proof.
  intros [_ Hpos]. unfold cart_quantity.
  destruct (List.find _ _) as [r|] eqn:Hr; [|done].
  apply find_some in Hr as [Hr _]. rewrite Forall_forall in Hpos.
  apply list_elem_of_In, Hpos in Hr. lia.
Qed.

Section CartInvariant.
Variable fails : query → bool.

Lemma removeItem_well_formed u p s :
  cart_well_formed s → cart_well_formed (cartModel.removeItem fails u p s).1.
Proof.
  unfold cartModel.removeItem, execute. destruct (fails _); [done|].
  apply filter_well_formed.
Qed.

Lemma clearCart_well_formed u s :
  cart_well_formed s → cart_well_formed (cartModel.clearCart fails u s).1.
Proof.
  unfold cartModel.clearCart, execute. destruct (fails _); [done|].
  apply filter_well_formed.
Qed.

Lemma setQuantity_well_formed u p q s :
  cart_well_formed s → cart_well_formed (cartModel.setQuantity fails u p q s).1.
Proof.
  unfold cartModel.setQuantity. intros Hs.
  destruct (JS.num_leb q (JS.Fin 0)) eqn:Hq; [by apply removeItem_well_formed|].
  destruct q as [|z|b]; [done| |done].
  unfold execute. destruct (fails _); [done|].
  apply upsert_well_formed; [|done]. simpl in Hq. apply Z.leb_gt in Hq. lia.
Qed.

(** Every route of the shopper keeps the cart table well formed: one line
    per (user, product), each holding at least one unit, whatever
    statements fail. *)
Theorem cart_stays_well_formed u req s :
  cart_well_formed s → cart_well_formed (route fails u req s).1.
Proof.
  intros Hs. destruct req as [rid q t|rid|rid q| |now]; simpl.
  - unfold cartController.add. rewrite on_fst.
    unfold productModel.getById, select.
    destruct (fails (SelectProduct rid)); [done|]. simpl.
    destruct (products s !! rid) as [prod|]; [|done].
    destruct (p_quantity prod <=? 0); [done|].
    rewrite on_fst. unfold cartModel.getItemQuantity, select.
    destruct (fails (SelectCartQuantity u rid)); [done|]. simpl.
    match goal with |- context [if ?b then _ else _] => destruct b end; [done|].
    into_cart_model setQuantity_well_formed; auto.
  - unfold cartController.remove.
    into_cart_model removeItem_well_formed; auto.
  - unfold cartController.updateQuantity. rewrite on_fst.
    unfold productModel.getById, select.
    destruct (fails (SelectProduct rid)); [done|]. simpl.
    destruct (products s !! rid) as [prod|]; [|done].
    destruct (p_quantity prod <=? 0).
    + into_cart_model removeItem_well_formed; auto.
    + into_cart_model setQuantity_well_formed; auto.
  - unfold cartController.clear.
    into_cart_model clearCart_well_formed; auto.
  - rewrite checkout_steps.
    destruct (fails (SelectCart u)); [done|].
    destruct (cart_of s u) as [|i cart] eqn:Hc; [done|].
    destruct (fails (InsertOrder u)); [done|].
    destruct (fails (InsertOrderItems _)); [done|].
    assert (cart_items (after_stock fails u now s) = cart_items s) as Hst.
    { unfold after_stock.
      by destruct (fold_decrease_tables fails (cart_of s u)
                     (after_lines u now s, false)) as (-> & _). }
    assert (cart_well_formed (after_stock fails u now s)) as Hafter
      by (unfold cart_well_formed; by rewrite Hst).
    destruct (stock_update_fails fails _); [done|].
    destruct (fails (DeleteCart u)); [done|].
    unfold cart_well_formed. cbn [fst]. rewrite after_clear_cart.
    by apply filter_well_formed.
Qed.

End CartInvariant.

(* ===================================================================== *)
(** ** C3: the add-to-cart contract *)
(* ===================================================================== *)




(* ===================================================================== *)
(** ** C4: the checkout is not atomic *)
(* ===================================================================== *)

Lemma no_lines_of_fresh_order oid rows :
  (∀ r, In r rows → oi_orderId r ≠ oid) →
  List.filter (λ r, oi_orderId r =? oid) rows = [].
Proof.
  induction rows as [|r rows IH]; simpl; intros Hfresh; [done|].
  destruct (Z.eqb_spec (oi_orderId r) oid) as [Heq|_].
  - exfalso. by apply (Hfresh r); [left|].
  - apply IH. intros; apply Hfresh; by right.
Qed.

Lemma checkout_pipeline fails userId now s :
  fails (SelectCart userId) = false → cart_of s userId ≠ [] →
  cartController.checkout fails userId now s =
  if fails (InsertOrder userId) then (s, database_error)
  else if fails (InsertOrderItems (orders_auto_increment s))
  then (after_header userId now s, database_error)
  else if stock_update_fails fails (cart_of s userId)
  then (after_stock fails userId now s, database_error)
  else if fails (DeleteCart userId)
  then (after_stock fails userId now s, database_error)
  else (after_clear fails userId now s,
        Reply None (render_checkout (cart_of s userId) now
                      ("INV-" +:+ pretty now)
                      (cartController.subtotal_of (cart_of s userId))
                      (taxAmount_of (cart_of s userId))
                      (total_of (cart_of s userId)))).
Proof.
  intros Hsel Hne. rewrite checkout_steps, Hsel.
  by destruct (cart_of s userId).
Qed.

(** C4.  Once the cart has been read and is not empty, a failing
    persistence step ends the request with 500 "Database error", the
    later steps do not run and the earlier ones stay:
    - the INSERT of the header fails: the tables are untouched;
    - the bulk INSERT of the lines fails: the header is in [orders], and
      [order_items], [products] and [cart_items] are as before (so the
      header has no lines when no stale row carries its id);
    - an UPDATE of the stock fails: header and lines are in, the cart is
      not cleared, and each product holds what the UPDATEs that went
      through left;
    - the DELETE of the cart fails: header, lines and stock are written
      and the cart is as before. *)
Theorem checkout_not_atomic (fails : query → bool) (userId now : Z) (s : db) :
  fails (SelectCart userId) = false → cart_of s userId ≠ [] →
  let cart := cart_of s userId in
  let oid := orders_auto_increment s in
  let out := cartController.checkout fails userId now s in
  let header_in := <[oid := header_of userId now cart]> (orders s) in
  let lines_in := order_items s ++ map (orderItemModel.row_of oid) cart in
  (fails (InsertOrder userId) = true → out = (s, database_error))
  ∧ (fails (InsertOrder userId) = false → fails (InsertOrderItems oid) = true →
       out.2 = database_error
       ∧ orders out.1 = header_in
       ∧ order_items out.1 = order_items s
       ∧ products out.1 = products s
       ∧ cart_items out.1 = cart_items s
       ∧ ((∀ r, In r (order_items s) → oi_orderId r ≠ oid) →
            (orderItemModel.getByOrder no_faults oid out.1).2 = Ok []))
  ∧ (fails (InsertOrder userId) = false → fails (InsertOrderItems oid) = false →
       stock_update_fails fails cart = true →
       out.2 = database_error
       ∧ orders out.1 = header_in
       ∧ order_items out.1 = lines_in
       ∧ cart_items out.1 = cart_items s
       ∧ ∀ pid, products out.1 !! pid
                = stock_after fails cart pid <$> products s !! pid)
  ∧ (fails (InsertOrder userId) = false → fails (InsertOrderItems oid) = false →
       stock_update_fails fails cart = false → fails (DeleteCart userId) = true →
       out.2 = database_error
       ∧ orders out.1 = header_in
       ∧ order_items out.1 = lines_in
       ∧ cart_items out.1 = cart_items s
       ∧ ∀ pid, products out.1 !! pid
                = stock_after fails cart pid <$> products s !! pid).
Proof.
  intros Hsel Hne cart oid out header_in lines_in.
  subst out. rewrite (checkout_pipeline fails userId now s Hsel Hne).
  fold cart. fold oid.
  destruct (fold_decrease_tables fails cart (after_lines userId now s, false))
    as (Hci & Ho & _ & Hoi).
  fold (after_stock fails userId now s) in Hci, Ho, Hoi. simpl in Hci, Ho, Hoi.
  fold cart oid in Ho, Hoi. fold header_in in Ho. fold lines_in in Hoi.
  split; [by intros ->|]. split; [|split].
  - intros -> ->. cbn [fst snd]. do 5 (split; [done|]).
    intros Hfresh. unfold orderItemModel.getByOrder, select, no_faults.
    cbn [fst snd after_header order_items]. f_equal.
    by apply no_lines_of_fresh_order.
  - intros -> -> ->. cbn [fst snd]. do 4 (split; [done|]).
    intros pid. apply after_stock_products.
  - intros -> -> -> ->. cbn [fst snd]. do 4 (split; [done|]).
    intros pid. apply after_stock_products.
Qed.

(** The instance of C4 on scenario B when only the INSERT of the lines
    fails: the order header is there, without lines; the stock is still 5
    and the cart still holds its line. *)
Lemma checkout_not_atomic_witness :
  let out := cartController.checkout lines_fail 7 1700000000000 (scenario_B 5) in
  out.2 = database_error
  ∧ orders out.1
    = {[ 1 := header_of 7 1700000000000 (cart_of (scenario_B 5) 7) ]}
  ∧ order_items out.1 = []
  ∧ products out.1 = products (scenario_B 5)
  ∧ cart_items out.1 = [CartItem 7 1 2].
Proof.
  intros out.
  pose proof (checkout_not_atomic lines_fail 7 1700000000000 (scenario_B 5)
                eq_refl ltac:(vm_compute; discriminate)) as H.
  cbv zeta in H. destruct H as (_ & H & _).
  destruct (H eq_refl eq_refl) as (H1 & H2 & H3 & H4 & H5 & _).
  by repeat split.
Defined.

(* ===================================================================== *)
(** ** C7: checkout on an empty cart *)
(* ===================================================================== *)

(** C7.  For a user with no cart line, a checkout leaves every table as
    it was (no order, no order line), whatever statements fail; and when
    the cart could be read the reply carries "Your cart is empty." and
    redirects to /cart. *)
Theorem checkout_empty_cart (fails : query → bool) (userId now : Z) (s : db) :
  (∀ r, In r (cart_items s) → ci_userId r ≠ userId) →
  let out := cartController.checkout fails userId now s in
  out.1 = s
  ∧ (fails (SelectCart userId) = false →
       out.2 = Reply (Some ["Your cart is empty."%string]) (redirect "/cart")).
Proof.
  intros Hnone out. subst out. rewrite checkout_steps.
  rewrite (cart_of_nil s userId Hnone).
  destruct (fails (SelectCart userId)); by split.
Qed.

(** The instance of C7 on scenario A, where user 7 has no cart line. *)
Lemma checkout_empty_cart_witness :
  cartController.checkout no_faults 7 1700000000000 scenario_A
  = (scenario_A, Reply (Some ["Your cart is empty."%string]) (redirect "/cart")).
Proof.
  destruct (checkout_empty_cart no_faults 7 1700000000000 scenario_A
              ltac:(by intros r [])) as [H1 H2].
  specialize (H2 eq_refl).
  destruct (cartController.checkout no_faults 7 1700000000000 scenario_A)
    as [s' r]. simpl in H1, H2. by rewrite H1, H2.
Defined.

(* ===================================================================== *)
(** ** C8: update-quantity *)
(* ===================================================================== *)

Lemma requested_quantity_range v :
  ∃ n, cartController.requested_quantity v = JS.Fin n ∧ 1 ≤ n ≤ 999
       ∧ ∀ z, v = JS.Numeral z → n = Z.min 999 (Z.max 1 z).
Proof.
  unfold cartController.requested_quantity.
  destruct v as [| |z|b|]; simpl;
    try (exists 1; split; [done|]; split; [lia|done]).
  destruct (Z.ltb_spec z 1) as [Hz|Hz]; simpl.
  - exists 1. split; [done|]. split; [lia|]. intros ? [= <-]. lia.
  - unfold JS.num_gtb; simpl. destruct (Z.ltb_spec 999 z) as [Hz'|Hz'].
    + exists 999. split; [done|]. split; [lia|]. intros ? [= <-]. lia.
    + exists z. split; [done|]. split; [lia|]. intros ? [= <-]. lia.
Qed.

(** C8.  With no failing statement and an existing product: the quantity
    that [updateQuantity] goes on with is within [1, 999] (the requested
    number clamped, 1 when it is missing or not finite); when the stock is
    0 or below, the cart line is deleted and the reply carries the
    insufficient-stock notice; when 0 < stock < that quantity, the cart
    line is rewritten with the stock as its quantity and the reply carries
    the notice; otherwise the line is rewritten with that quantity and no
    notice is given. *)
Theorem updateQuantity_contract (fails : query → bool) (userId id : Z)
    (v : JS.field) (s : db) (product : product) :
  (∀ x, fails x = false) → products s !! id = Some product →
  let out := cartController.updateQuantity fails userId id v s in
  let notice :=
    Some [cartController.insufficientStockMessage (p_productName product)] in
  ∃ n, cartController.requested_quantity v = JS.Fin n ∧ 1 ≤ n ≤ 999
       ∧ (∀ z, v = JS.Numeral z → n = Z.min 999 (Z.max 1 z))
       ∧ (p_quantity product ≤ 0 →
            cart_items out.1
            = List.filter (λ r, negb (cartModel.is_line userId id r)) (cart_items s)
            ∧ cart_quantity out.1 userId id = 0
            ∧ out.2 = Reply notice (redirect "/cart"))
       ∧ (0 < p_quantity product < n →
            cart_items out.1
            = cartModel.upsert userId id (p_quantity product) (cart_items s)
            ∧ cart_quantity out.1 userId id = p_quantity product
            ∧ out.2 = Reply notice (redirect "/cart"))
       ∧ (n ≤ p_quantity product →
            cart_items out.1 = cartModel.upsert userId id n (cart_items s)
            ∧ cart_quantity out.1 userId id = n
            ∧ out.2 = Reply None (redirect "/cart")).
Proof.
  intros Hf Hp out notice. subst out notice.
  destruct (requested_quantity_range v) as (n & Hn & Hrange & Hclamp).
  exists n. split; [done|]. split; [done|]. split; [done|].
  unfold cartController.updateQuantity, on, productModel.getById, select.
  rewrite Hf, Hp, Hn.
  destruct (Z.leb_spec (p_quantity product) 0) as [Hs|Hs].
  - unfold cartModel.removeItem, execute, respond. rewrite Hf. cbn [fst snd].
    split; [|split; intros; lia]. intros _. split; [done|]. split; [|done].
    unfold cart_quantity; simpl. by rewrite find_filter_out.
  - split; [intros; lia|]. unfold JS.num_gtb, JS.num_ltb.
    destruct (Z.ltb_spec (p_quantity product) n) as [Hlt|Hge].
    + unfold cartModel.setQuantity. cbn [JS.num_leb].
      replace (p_quantity product <=? 0) with false
        by (symmetry; apply Z.leb_gt; lia).
      unfold execute, respond. rewrite Hf. cbn [fst snd].
      split; [|intros; lia]. intros _. split; [done|]. split; [|done].
      unfold cart_quantity; simpl. by rewrite find_upsert_same.
    + unfold cartModel.setQuantity. cbn [JS.num_leb].
      replace (n <=? 0) with false by (symmetry; apply Z.leb_gt; lia).
      unfold execute, respond. rewrite Hf. cbn [fst snd].
      split; [intros; lia|]. intros _. split; [done|]. split; [|done].
      unfold cart_quantity; simpl. by rewrite find_upsert_same.
Qed.

(** Two instances of C8 on scenario B (two units of product 1 in the
    cart): asking for 5000 with five in stock stores 5 and gives the
    notice; asking for 3 with nothing in stock deletes the line. *)
Lemma updateQuantity_contract_witness :
  (let out := cartController.updateQuantity no_faults 7 1 (JS.Numeral 5000)
                (scenario_B 5) in
   cart_items out.1 = [CartItem 7 1 5]
   ∧ out.2 = Reply (Some ["Don't have sufficient stock for Milk."%string])
                   (redirect "/cart"))
  ∧ (let out := cartController.updateQuantity no_faults 7 1 (JS.Numeral 3)
                  (scenario_B 0) in
     cart_items out.1 = []
     ∧ out.2 = Reply (Some ["Don't have sufficient stock for Milk."%string])
                     (redirect "/cart")).
Proof.
  split.
  - destruct (updateQuantity_contract no_faults 7 1 (JS.Numeral 5000)
                (scenario_B 5) (Product "Milk" 5 10%float "milk.png")
                (λ _, eq_refl) eq_refl) as (n & _ & _ & Hn & _ & H & _).
    rewrite (Hn 5000 eq_refl) in H.
    destruct (H ltac:(simpl; lia)) as (H1 & _ & H2). by split.
  - destruct (updateQuantity_contract no_faults 7 1 (JS.Numeral 3)
                (scenario_B 0) (Product "Milk" 0 10%float "milk.png")
                (λ _, eq_refl) eq_refl) as (n & _ & _ & _ & H & _).
    destruct (H ltac:(simpl; lia)) as (H1 & _ & H2). by split.
Defined.

(* ===================================================================== *)
(** ** C9: the quantity that add-to-cart goes on with *)
(* ===================================================================== *)

(** A missing, blank, zero or negative quantity (and "-Infinity") is
    taken as 1: the handler is the one of [quantity = 1]. *)
Lemma add_clamps_to_one (fails : query → bool) (userId productId : Z)
    (v : JS.field) (target : option string) :
  match v with
  | JS.Absent | JS.Blank | JS.Infinite true => True
  | JS.Numeral z => z ≤ 1
  | _ => False
  end →
  cartController.add fails userId productId v target
  = cartController.add fails userId productId (JS.Numeral 1) target.
Proof.
  intros Hv. unfold cartController.add.
  replace (JS.Math_max (JS.Fin 1) (JS.Number_or_1 v))
    with (JS.Math_max (JS.Fin 1) (JS.Number_or_1 (JS.Numeral 1))); [done|].
  destruct v as [| |z|[]|]; try done. simpl.
  unfold JS.Math_max, JS.num_ltb. by destruct (Z.ltb_spec 1 z); [lia|].
Qed.

(** C9 at the failing input.  A quantity that [Number] reads as NaN is
    not taken as 1: [Math.max(1, NaN)] is NaN, which passes
    [requestedQty > maxAddable] and reaches [setQuantity].  On scenario A
    (five in stock, empty cart) the request ends in 500 "Database error"
    with the cart unchanged, where [quantity = 1] puts one unit in the
    cart and redirects. *)
Lemma add_garbage_is_not_add_one :
  let bad := cartController.add no_faults 7 1 JS.Garbage None scenario_A in
  let one := cartController.add no_faults 7 1 (JS.Numeral 1) None scenario_A in
  JS.Math_max (JS.Fin 1) (JS.Number_or_1 JS.Garbage) = JS.NaN
  ∧ bad = (scenario_A, database_error)
  ∧ cart_items one.1 = [CartItem 7 1 1]
  ∧ one.2 = Reply None (redirect "/shopping")
  ∧ bad.2 ≠ one.2 ∧ cart_items bad.1 ≠ cart_items one.1.
Proof.
  intros bad one.
  assert (bad = (scenario_A, database_error)) as Hbad by (vm_compute; reflexivity).
  assert (cart_items one.1 = [CartItem 7 1 1]) as H1 by (vm_compute; reflexivity).
  assert (one.2 = Reply None (redirect "/shopping")) as H2
    by (vm_compute; reflexivity).
  split; [done|]. split; [done|]. split; [done|]. split; [done|].
  rewrite Hbad, H1, H2. split; [done|]. simpl. done.
Qed.

(* ===================================================================== *)
(** ** C10: the status of a stored order *)
(* ===================================================================== *)

Lemma normalizeStatus_allowed v :
  In (orderModel.normalizeStatus v) orderModel.ORDER_STATUSES.
Proof.
  assert (In orderModel.DEFAULT_ORDER_STATUS orderModel.ORDER_STATUSES) as Hd
    by (by left).
  unfold orderModel.normalizeStatus. destruct v as [s|b]; [|done].
  destruct (JS.trim s) as [|a t]; [done|].
  destruct (List.find _ _) as [m|] eqn:Hm; [|done].
  by apply find_some in Hm as [Hm _].
Qed.





(* ===================================================================== *)
(** ** C5: the inverse tax calculation of the order edit *)
(* ===================================================================== *)

Lemma one_plus_TAX_RATE :
  (one + adminOrdersController.TAX_RATE)%float = 1.09%float.
Proof. vm_compute. reflexivity. Qed.

Lemma normalizeStatus_of_option opt :
  In opt adminOrdersController.STATUS_OPTIONS →
  orderModel.normalizeStatus (Str opt) = opt ∧ opt ≠ EmptyString.
Proof.
  intros H. repeat (destruct H as [<-|H]; [by vm_compute|]). destruct H.
Qed.

Lemma includes_In opts x :
  adminOrdersController.includes opts x = true ↔ In x opts.
Proof.
  unfold adminOrdersController.includes. rewrite existsb_exists. split.
  - intros (y & Hy & Heq). apply String.eqb_eq in Heq. by subst.
  - intros H. exists x. split; [done|]. apply String.eqb_refl.
Qed.

Lemma clamp_not_negative x :
  ((if (x <? zero)%float then zero else x) <? zero)%float = false.
Proof. by destruct (x <? zero)%float eqn:E. Qed.

(** C5.  For a valid edit (an invoice number, a finite total t that is
    not below 0, one of the four statuses): the handler recomputes
    subtotal = round2 (t / 1.09), then taxAmount = round2 (t - subtotal)
    put to 0 when negative, each rounded as soon as it is derived; the
    taxAmount is never below 0; the order row is rewritten with these
    amounts as [formatMoney] stores them and the reply says 'Order
    updated'.  For t = 21.80 the recomputed and stored amounts are 20 and
    1.8, the amounts the checkout computes for a cart of two units at
    10.00. *)
Theorem inverse_tax (fails : query → bool) (orderId : Z) (invoiceNumber : string)
    (t : float) (status : string) (s : db) (old : order) :
  invoiceNumber ≠ EmptyString →
  JS.isFinite t = true → (t <? zero)%float = false →
  In (JS.trim status) adminOrdersController.STATUS_OPTIONS →
  fails (UpdateOrder orderId) = false → orders s !! orderId = Some old →
  let subtotal := JS.round2 (t / 1.09)%float in
  let rounded := JS.round2 (t - subtotal)%float in
  let taxAmount := if (rounded <? zero)%float then zero else rounded in
  let out := adminOrdersController.update fails (Some orderId)
               (adminOrdersController.EditForm (Some invoiceNumber) t (Str status))
               s in
  adminOrdersController.recomputed_subtotal t = subtotal
  ∧ adminOrdersController.recomputed_taxAmount t = taxAmount
  ∧ (taxAmount <? zero)%float = false
  ∧ out.2 = Reply (Some ["Order updated"%string]) (redirect "/admin/orders")
  ∧ orders out.1 !! orderId
    = Some (Order invoiceNumber (o_userId old)
              (orderModel.formatMoney (Some subtotal))
              (orderModel.formatMoney (Some taxAmount))
              (orderModel.formatMoney (Some t)) (JS.trim status))
  ∧ (t = 21.8%float →
       subtotal = 20%float ∧ taxAmount = 1.8%float
       ∧ orderModel.formatMoney (Some subtotal) = 20%float
       ∧ orderModel.formatMoney (Some taxAmount) = 1.8%float
       ∧ orderModel.formatMoney (Some t) = 21.8%float
       ∧ ∀ pid name img,
           let cart := [CartLine pid name 10%float img 2] in
           cartController.subtotal_of cart = subtotal
           ∧ taxAmount_of cart = taxAmount ∧ total_of cart = t).
Proof.
  intros Hinv Hfin Hpos Hst Hf Hold subtotal rounded taxAmount out.
  assert (adminOrdersController.recomputed_subtotal t = subtotal) as Hsub
    by (unfold adminOrdersController.recomputed_subtotal;
        by rewrite one_plus_TAX_RATE).
  assert (adminOrdersController.recomputed_taxAmount t = taxAmount) as Htax
    by (unfold adminOrdersController.recomputed_taxAmount; by rewrite Hsub).
  split; [done|]. split; [done|]. split; [apply clamp_not_negative|].
  destruct (normalizeStatus_of_option _ Hst) as [Hnorm Hne].
  assert (adminOrdersController.validate
            (adminOrdersController.EditForm (Some invoiceNumber) t (Str status))
          = []) as Hvalid.
  { unfold adminOrdersController.validate.
    cbn [adminOrdersController.f_invoiceNumber adminOrdersController.f_parsedTotal
         adminOrdersController.f_status].
    rewrite Hfin, Hpos, (proj2 (includes_In _ _) Hst),
      (proj2 (String.eqb_neq _ _) Hne).
    by destruct invoiceNumber. }
  subst out. unfold adminOrdersController.update. rewrite Hvalid.
  unfold on, orderModel.update, execute. rewrite Hf. cbn [fst snd respond].
  split; [done|]. split.
  - unfold orderModel.set_orders; cbn [orders]. rewrite lookup_alter_eq, Hold.
    cbn [fmap option_fmap option_map adminOrdersController.f_invoiceNumber]. f_equal.
    unfold orderModel.update_row.
    cbn [orderModel.t_subtotal orderModel.t_taxAmount orderModel.t_total
         orderModel.t_status adminOrdersController.f_parsedTotal
         adminOrdersController.f_status adminOrdersController.f_invoiceNumber
         default].
    by rewrite Hsub, Htax, Hnorm.
  - intros ->.
    assert (subtotal = 20%float) as E1 by (vm_compute; reflexivity).
    assert (taxAmount = 1.8%float) as E2 by (vm_compute; reflexivity).
    rewrite E1, E2. repeat split; vm_compute; reflexivity.
Qed.

(** Scenario C, from C5: editing order 1 of scenario C to a total of
    21.80 stores subtotal 20, tax 1.8 and total 21.8. *)
Lemma inverse_tax_witness :
  orders (adminOrdersController.update no_faults (Some 1)
            (adminOrdersController.EditForm (Some "INV-1"%string) 21.8%float
               (Str "Order delivered")) scenario_C).1 !! 1
  = Some (Order "INV-1" 7 20%float 1.8%float 21.8%float "Order delivered").
Proof.
  pose proof (inverse_tax no_faults 1 "INV-1" 21.8%float "Order delivered"
                scenario_C
                (Order "INV-1" 7 10%float 0.9%float 10.9%float
                       "Pending for delivery")
                ltac:(done) eq_refl eq_refl ltac:(vm_compute; tauto)
                eq_refl eq_refl) as H.
  cbv zeta in H. destruct H as (_ & _ & _ & _ & Hrow & HC).
  destruct (HC eq_refl) as (_ & _ & H1 & H2 & H3 & _).
  rewrite Hrow, H1, H2, H3. reflexivity.
Defined.

(* ===================================================================== *)
(** ** C6: order and order lines *)
(* ===================================================================== *)





Lemma filter_own_lines oid cart :
  List.filter (λ r, oi_orderId r =? oid) (map (orderItemModel.row_of oid) cart)
  = map (orderItemModel.row_of oid) cart.
Proof.
  induction cart as [|i cart IH]; simpl; [done|].
  by rewrite Z.eqb_refl, IH.
Qed.

(* ===================================================================== *)
(** ** Binary64 arithmetic: how far a rounded result is from the exact one *)
(* ===================================================================== *)











(** *** Shifting to the right *)








(** *** Rounding to 53 bits *)



(** *** The value of a rounded result *)











(** *** Sums and products *)







(** *** [Number] of a numeral with two decimals *)


(** *** [toFixed(2)] of a number that is close to a numeral *)




(** *** The stored amounts of an order *)











(** *** The sum of a cart priced in cents *)









(* ===================================================================== *)
(** ** Further properties of the cart *)
(* ===================================================================== *)

(** An instance of the clamp of add-to-cart: asking for -4 units is
    asking for one. *)
Lemma add_clamps_to_one_witness :
  cartController.add no_faults 7 1 (JS.Numeral (-4)) None scenario_A
  = cartController.add no_faults 7 1 (JS.Numeral 1) None scenario_A.
Proof.
  by rewrite (add_clamps_to_one no_faults 7 1 (JS.Numeral (-4)) None
                ltac:(simpl; lia)).
Defined.

(** An instance on scenario B: setting the line of product 1 to 4. *)
Lemma cart_stays_well_formed_witness :
  cart_well_formed
    (route no_faults 7 (PostCartUpdate 1 (JS.Numeral 4)) (scenario_B 5)).1.
Proof.
  apply (cart_stays_well_formed no_faults 7 (PostCartUpdate 1 (JS.Numeral 4))
           (scenario_B 5) (scenario_B_well_formed 5)).
Defined.

(* ===================================================================== *)
(** ** The cart store: write, read, remove, clear *)
(* ===================================================================== *)


Lemma upsert_upsert u p q1 q2 rows :
  cartModel.upsert u p q2 (cartModel.upsert u p q1 rows)
  = cartModel.upsert u p q2 rows.
Proof.
  assert (cartModel.is_line u p (CartItem u p q1) = true) as Hself
    by (by apply is_line_spec).
  induction rows as [|r rows IH]; simpl; [by rewrite Hself|].
  destruct (cartModel.is_line u p r) eqn:Hr; simpl.
  - by rewrite Hself.
  - by rewrite Hr, IH.
Qed.


Lemma filter_all {A} (keep : A → bool) (l : list A) :
  (∀ x, In x l → keep x = true) → List.filter keep l = l.
Proof.
  induction l as [|x l IH]; simpl; intros H; [done|].
  rewrite (H x) by (by left). f_equal. apply IH. intros; apply H; by right.
Qed.

Lemma find_filter_other u p u' p' rows :
  (u', p') ≠ (u, p) →
  List.find (cartModel.is_line u' p')
    (List.filter (λ r, negb (cartModel.is_line u p r)) rows)
  = List.find (cartModel.is_line u' p') rows.
Proof.
  intros Hne. induction rows as [|r rows IH]; simpl; [done|].
  destruct (cartModel.is_line u p r) eqn:Hr; simpl.
  - replace (cartModel.is_line u' p' r) with false; [done|].
    symmetry. apply not_true_is_false. intros H%is_line_spec.
    apply is_line_spec in Hr. congruence.
  - by rewrite IH.
Qed.

(** What is written into the cart is what is read back.  With no failing
    statement and q > 0, after [setQuantity(userId, productId, q)]:
    [getItemQuantity] of that line calls back with q; it calls back as
    before for every other line; the other tables are untouched; and a
    second [setQuantity] overwrites the first (the last write wins, the
    quantities do not add up). *)
Theorem cart_write_then_read (fails : query → bool) (userId productId q : Z)
    (s : db) :
  (∀ x, fails x = false) → 0 < q →
  let s' := (cartModel.setQuantity fails userId productId (JS.Fin q) s).1 in
  cartModel.getItemQuantity fails userId productId s' = (s', Ok q)
  ∧ (∀ u p, (u, p) ≠ (userId, productId) →
       (cartModel.getItemQuantity fails u p s').2
       = (cartModel.getItemQuantity fails u p s).2)
  ∧ products s' = products s ∧ orders s' = orders s
  ∧ order_items s' = order_items s
  ∧ (∀ q2, 0 < q2 →
       (cartModel.setQuantity fails userId productId (JS.Fin q2) s').1
       = (cartModel.setQuantity fails userId productId (JS.Fin q2) s).1).
Proof.
  intros Hf Hq s'.
  assert (∀ z t, 0 < z →
            (cartModel.setQuantity fails userId productId (JS.Fin z) t).1
            = set_cart_items (cartModel.upsert userId productId z) t) as Hset.
  { intros z t Hz. unfold cartModel.setQuantity. cbn [JS.num_leb].
    replace (z <=? 0) with false by (symmetry; apply Z.leb_gt; lia).
    unfold execute. by rewrite Hf. }
  subst s'. rewrite (Hset q s Hq).
  unfold cartModel.getItemQuantity, select. rewrite !Hf. cbn [fst snd].
  split; [|split].
  - unfold set_cart_items at 2; cbn [cart_items]. by rewrite find_upsert_same.
  - intros u p Hne. rewrite !Hf. cbn [snd]. unfold set_cart_items; cbn [cart_items].
    by rewrite find_upsert_other.
  - do 3 (split; [done|]). intros q2 Hq2. rewrite !Hset by done.
    unfold set_cart_items; simpl. by rewrite upsert_upsert.
Qed.

(** An instance on scenario B: the line of product 1 set to 9. *)
Lemma cart_write_then_read_witness :
  cartModel.getItemQuantity no_faults 7 1
    (cartModel.setQuantity no_faults 7 1 (JS.Fin 9) (scenario_B 5)).1
  = ((cartModel.setQuantity no_faults 7 1 (JS.Fin 9) (scenario_B 5)).1, Ok 9).
Proof.
  apply (cart_write_then_read no_faults 7 1 9 (scenario_B 5) (λ _, eq_refl)).
  lia.
Defined.



(* ===================================================================== *)
(** ** The stock decrement on any list of items *)
(* ===================================================================== *)

Lemma decrements_positive fails pid turn :
  decrements fails pid turn = true → 0 < quantity turn.2.
Proof.
  unfold decrements. intros [Hd _]%andb_true_iff.
  by apply andb_true_iff in Hd as [Hq%Z.ltb_lt _].
Qed.

Lemma purchased_turns_nonneg fails turns pid : 0 ≤ purchased_turns fails turns pid.
Proof.
  induction turns as [|x turns IH]; simpl; [done|].
  destruct (decrements fails pid x) eqn:Hd; [|done].
  apply decrements_positive in Hd. lia.
Qed.

Lemma purchased_nonneg fails items pid : 0 ≤ purchased fails items pid.
Proof. apply purchased_turns_nonneg. Qed.

Lemma decrease_decrease a b p :
  0 < a → 0 < b →
  productModel.decrease b (productModel.decrease a p) = productModel.decrease (a + b) p.
Proof. intros Ha Hb. unfold productModel.decrease; simpl. f_equal. lia. Qed.

Lemma stock_after_turns_decreased fails turns pid a p :
  0 < a →
  stock_after_turns fails turns pid (productModel.decrease a p)
  = productModel.decrease (a + purchased_turns fails turns pid) p.
Proof.
  revert a; induction turns as [|x turns IH]; intros a Ha; simpl.
  - by rewrite Z.add_0_r.
  - destruct (decrements fails pid x) eqn:Hd.
    + apply decrements_positive in Hd.
      rewrite decrease_decrease by done.
      change (fold_left _ turns ?q) with (stock_after_turns fails turns pid q).
      rewrite IH by lia. f_equal. lia.
    + apply IH. done.
Qed.

Lemma stock_after_turns_total fails turns pid p :
  stock_after_turns fails turns pid p
  = if purchased_turns fails turns pid =? 0 then p
    else productModel.decrease (purchased_turns fails turns pid) p.
Proof.
  induction turns as [|x turns IH]; simpl; [done|].
  change (fold_left _ turns ?q) with (stock_after_turns fails turns pid q).
  pose proof (purchased_turns_nonneg fails turns pid) as Hn.
  destruct (decrements fails pid x) eqn:Hd; [|done].
  apply decrements_positive in Hd.
  rewrite stock_after_turns_decreased by done.
  by replace (quantity x.2 + purchased_turns fails turns pid =? 0) with false
    by (symmetry; apply Z.eqb_neq; lia).
Qed.

Lemma stock_after_total fails items pid p :
  stock_after fails items pid p
  = if purchased fails items pid =? 0 then p
    else productModel.decrease (purchased fails items pid) p.
Proof. apply stock_after_turns_total. Qed.

Lemma purchased_turns_all fails turns pid :
  (∀ index id, fails (DecreaseProduct index id) = false) →
  purchased_turns fails turns pid
  = foldr (λ item total, if (0 <? quantity item) && (id item =? pid)
                         then quantity item + total else total)
          0 (map snd turns).
Proof.
  intros Hf. induction turns as [|[index item] turns IH]; simpl; [done|].
  unfold decrements. cbn [fst snd]. by rewrite Hf, andb_true_r, IH.
Qed.

(** [decreaseQuantities] on any list of items, also one that names a
    product several times or holds quantities that are not positive, and
    whatever UPDATEs fail, each on its own: a product's row afterwards has
    the quantity max(previous - t, 0), where t is the sum of the positive
    quantities of its items whose UPDATE went through, and is unchanged
    when there is no such item; name, price and image are never touched,
    no product appears or disappears, and the other tables are as before.
    When no UPDATE fails, t is the sum of the positive quantities of the
    product's items; of two items of one product, one can be taken off
    while the UPDATE of the other fails. *)
Theorem decreaseQuantities_total (fails : query → bool) (items : list cart_line)
    (s : db) :
  let s' := (productModel.decreaseQuantities fails items s).1 in
  (∀ pid, products s' !! pid
          = (λ p, if purchased fails items pid =? 0 then p
                  else Product (p_productName p)
                         (Z.max (p_quantity p - purchased fails items pid) 0)
                         (p_price p) (p_image p))
            <$> products s !! pid)
  ∧ cart_items s' = cart_items s ∧ orders s' = orders s
  ∧ order_items s' = order_items s
  ∧ ((∀ index id, fails (DecreaseProduct index id) = false) →
       ∀ pid, purchased fails items pid
              = foldr (λ item total, if (0 <? quantity item) && (id item =? pid)
                                     then quantity item + total else total)
                      0 items)
  ∧ (∀ a b, id a = id b → 0 < quantity a → 0 < quantity b →
       items = [a; b] →
       fails (DecreaseProduct 0 (id a)) = true →
       fails (DecreaseProduct 1 (id b)) = false →
       purchased fails items (id a) = quantity b).
Proof.
  intros s'. subst s'. unfold productModel.decreaseQuantities.
  assert ((∀ index id, fails (DecreaseProduct index id) = false) →
          ∀ pid, purchased fails items pid
                 = foldr (λ item total, if (0 <? quantity item) && (id item =? pid)
                                        then quantity item + total else total)
                         0 items) as Hall.
  { intros Hf pid. unfold purchased.
    by rewrite (purchased_turns_all fails _ pid Hf), indexed_items. }
  assert (∀ a b, id a = id b → 0 < quantity a → 0 < quantity b →
            items = [a; b] →
            fails (DecreaseProduct 0 (id a)) = true →
            fails (DecreaseProduct 1 (id b)) = false →
            purchased fails items (id a) = quantity b) as Htwo.
  { intros a b Hid Ha Hb -> Hfa Hfb.
    unfold purchased, indexed, indexed_from, purchased_turns, decrements.
    cbn [foldr fst snd]. rewrite Hfa, Hfb, <- Hid, Z.eqb_refl.
    replace (0 <? quantity b) with true by (symmetry; apply Z.ltb_lt; lia).
    rewrite andb_false_r. cbn. lia. }
  destruct items as [|i items].
  { cbn [fst]. split; [|done]. intros pid. simpl.
    by destruct (products s !! pid). }
  pose proof (fold_decrease_products fails (i :: items) (s, false)) as Hp.
  destruct (fold_decrease_tables fails (i :: items) (s, false))
    as (Hc & Ho & _ & Hl).
  destruct (fold_left _ (indexed (i :: items)) (s, false)) as [s' e].
  cbn [fst] in *. split; [|done].
  intros pid. rewrite Hp. destruct (products s !! pid) as [p|]; [|done].
  cbn [fmap option_fmap option_map]. f_equal. apply stock_after_total.
Qed.

(* ===================================================================== *)
(** ** Order lines: bulk insert, read, delete *)
(* ===================================================================== *)

Lemma filter_none {A} (keep : A → bool) (l : list A) :
  (∀ x, In x l → keep x = false) → List.filter keep l = [].
Proof.
  induction l as [|x l IH]; simpl; intros H; [done|].
  rewrite (H x) by (by left). apply IH. intros; apply H; by right.
Qed.

Lemma filter_other_lines oid other items :
  other ≠ oid →
  List.filter (λ r, oi_orderId r =? other) (map (orderItemModel.row_of oid) items)
  = [].
Proof.
  intros Hne. apply filter_none. intros r (i & <- & _)%in_map_iff. simpl.
  by apply Z.eqb_neq.
Qed.

(** The order lines that are written are the lines that are read.  An
    empty [items] sends no statement: [createMany] calls back without an
    error and the tables are as before, whatever statements fail.  When
    [createMany] calls back without an error, [getByOrder] of that order
    returns the lines it had followed by one line per item, in order;
    [getByOrder] of every other order returns what it returned before;
    and products, cart and orders are untouched.  When it calls back with
    an error, nothing was written. *)
Theorem order_lines_write_then_read (fails : query → bool) (orderId : Z)
    (items : list cart_line) (s : db) :
  let out := orderItemModel.createMany fails orderId items s in
  (items = [] → out = (s, Ok tt))
  ∧ (out.2 = Ok tt →
       (orderItemModel.getByOrder no_faults orderId out.1).2
       = Ok (List.filter (λ r, oi_orderId r =? orderId) (order_items s)
             ++ map (orderItemModel.row_of orderId) items)
       ∧ (∀ other, other ≠ orderId →
            (orderItemModel.getByOrder no_faults other out.1).2
            = (orderItemModel.getByOrder no_faults other s).2)
       ∧ products out.1 = products s ∧ cart_items out.1 = cart_items s
       ∧ orders out.1 = orders s)
  ∧ (out.2 = Err → out.1 = s).
Proof.
  intros out. subst out. split; [by intros ->|].
  unfold orderItemModel.getByOrder, select, no_faults. cbn [snd].
  destruct items as [|i items].
  { cbn. split; [|done]. intros _. rewrite app_nil_r. by repeat split. }
  unfold orderItemModel.createMany, execute.
  destruct (fails (InsertOrderItems orderId)); cbn [fst snd]; [by split|].
  split; [|done]. intros _. cbn [order_items].
  split; [by rewrite List.filter_app, filter_own_lines|].
  split; [|done]. intros other Hne.
  by rewrite List.filter_app, filter_other_lines, app_nil_r.
Qed.

(* ===================================================================== *)
(** ** Deleting an order *)
(* ===================================================================== *)

Lemma lines_of_other_order oid other rows :
  other ≠ oid →
  List.filter (λ r, oi_orderId r =? other)
    (List.filter (λ r, negb (oi_orderId r =? oid)) rows)
  = List.filter (λ r, oi_orderId r =? other) rows.
Proof.
  intros Hne. induction rows as [|r rows IH]; simpl; [done|].
  destruct (Z.eqb_spec (oi_orderId r) oid) as [Heq|Hr]; simpl.
  - destruct (Z.eqb_spec (oi_orderId r) other); [congruence|]. apply IH.
  - by rewrite IH.
Qed.

Lemma remove_steps fails_order oid s :
  adminOrders.remove fails_order (Some oid) s =
  if fails_order (DeleteOrderItems oid) then (s, database_error)
  else
    let lines := List.filter (λ r, negb (oi_orderId r =? oid)) (order_items s) in
    if fails_order (DeleteOrder oid)
    then (Db (products s) (cart_items s) (orders s) (orders_auto_increment s) lines,
          database_error)
    else (Db (products s) (cart_items s) (delete oid (orders s))
             (orders_auto_increment s) lines,
          Reply (Some ["Order deleted"%string]) (redirect "/admin/orders")).
Proof.
  unfold adminOrders.remove, on, deleteByOrder, deleteOrder, execute_order.
  destruct (fails_order (DeleteOrderItems oid)); [done|].
  by destruct (fails_order (DeleteOrder oid)).
Qed.

(** The administrator's delete of an order, lines first.  An id that is
    not a number only redirects.  When the DELETE of the lines fails,
    nothing is deleted.  When it goes through and the DELETE of the order
    fails, the lines are gone and the order row stays.  When both go
    through, the reply says 'Order deleted' (also when no such order
    existed), the order and its lines are gone, every other order and its
    lines are as before, and products and carts are untouched. *)
Theorem admin_delete_order (fails_order : order_query → bool) (oid : Z) (s : db) :
  let out := adminOrders.remove fails_order (Some oid) s in
  adminOrders.remove fails_order None s
  = (s, Reply None (redirect "/admin/orders"))
  ∧ (fails_order (DeleteOrderItems oid) = true → out = (s, database_error))
  ∧ (fails_order (DeleteOrderItems oid) = false →
       (orderItemModel.getByOrder no_faults oid out.1).2 = Ok []
       ∧ (∀ other, other ≠ oid →
            (orderItemModel.getByOrder no_faults other out.1).2
            = (orderItemModel.getByOrder no_faults other s).2)
       ∧ products out.1 = products s ∧ cart_items out.1 = cart_items s
       ∧ (fails_order (DeleteOrder oid) = true →
            out.2 = database_error ∧ orders out.1 = orders s)
       ∧ (fails_order (DeleteOrder oid) = false →
            out.2 = Reply (Some ["Order deleted"%string]) (redirect "/admin/orders")
            ∧ orders out.1 !! oid = None
            ∧ ∀ other, other ≠ oid → orders out.1 !! other = orders s !! other)).
Proof.
  intros out. subst out. split; [done|]. rewrite remove_steps.
  split; [by intros ->|]. intros ->.
  assert (∀ t, order_items t
               = List.filter (λ r, negb (oi_orderId r =? oid)) (order_items s) →
            (orderItemModel.getByOrder no_faults oid t).2 = Ok []
            ∧ ∀ other, other ≠ oid →
                (orderItemModel.getByOrder no_faults other t).2
                = (orderItemModel.getByOrder no_faults other s).2) as Hlines.
  { intros t Ht. unfold orderItemModel.getByOrder, select, no_faults. cbn [snd].
    rewrite Ht. split.
    - f_equal. apply filter_none. intros r [_ Hr]%filter_In.
      by apply negb_true_iff in Hr.
    - intros other Hne. f_equal. by apply lines_of_other_order. }
  cbv zeta.
  destruct (fails_order (DeleteOrder oid)); cbn [fst snd];
    match goal with |- context [orderItemModel.getByOrder no_faults oid ?t] =>
      destruct (Hlines t eq_refl) as [H1 H2] end.
  - split; [done|]. split; [done|]. by repeat split.
  - split; [done|]. split; [done|]. do 2 (split; [done|]). split; [done|].
    intros _. split; [done|]. cbn [orders].
    split; [apply lookup_delete_eq|]. intros other Hne. by apply lookup_delete_ne.
Qed.

(* ===================================================================== *)
(** ** What the cart routes leave alone *)
(* ===================================================================== *)

Section Frame.
Variable fails : query → bool.

Lemma removeItem_frame u p s :
  same_but_cart (cartModel.removeItem fails u p s).1 s.
Proof. unfold cartModel.removeItem, execute. by destruct (fails _). Qed.

Lemma setQuantity_frame u p q s :
  same_but_cart (cartModel.setQuantity fails u p q s).1 s.
Proof.
  unfold cartModel.setQuantity.
  destruct (JS.num_leb q (JS.Fin 0)); [apply removeItem_frame|].
  destruct q; try done. unfold execute. by destruct (fails _).
Qed.

Lemma clearCart_frame u s :
  same_but_cart (cartModel.clearCart fails u s).1 s.
Proof. unfold cartModel.clearCart, execute. by destruct (fails _). Qed.

Lemma same_but_cart_refl s : same_but_cart s s.
Proof. done. Qed.

Lemma cart_routes_frame u req s :
  match req with
  | GetCartCheckout _ => True
  | _ => same_but_cart (route fails u req s).1 s
  end.
Proof.
  pose proof (same_but_cart_refl s) as Hrefl.
  destruct req as [rid q t|rid|rid q| |now]; simpl; [| | | |done].
  - unfold cartController.add. rewrite on_fst.
    unfold productModel.getById, select.
    destruct (fails (SelectProduct rid)); [done|]. simpl.
    destruct (products s !! rid) as [prod|]; [|done].
    destruct (p_quantity prod <=? 0); [done|].
    rewrite on_fst. unfold cartModel.getItemQuantity, select.
    destruct (fails (SelectCartQuantity u rid)); [done|]. simpl.
    match goal with |- context [if ?b then _ else _] => destruct b end; [done|].
    into_cart_model setQuantity_frame; auto.
  - unfold cartController.remove. into_cart_model removeItem_frame; auto.
  - unfold cartController.updateQuantity. rewrite on_fst.
    unfold productModel.getById, select.
    destruct (fails (SelectProduct rid)); [done|]. simpl.
    destruct (products s !! rid) as [prod|]; [|done].
    destruct (p_quantity prod <=? 0).
    + into_cart_model removeItem_frame; auto.
    + into_cart_model setQuantity_frame; auto.
  - unfold cartController.clear. into_cart_model clearCart_frame; auto.
Qed.

End Frame.

(* ===================================================================== *)
(** ** Order ids *)
(* ===================================================================== *)




(* ===================================================================== *)
(** ** Checkout, then the administrator's delete *)
(* ===================================================================== *)

(** Deleting an order does not put the goods back.  After a checkout
    with no failing statement, the administrator's delete of the new
    order (no failing statement either) leaves [orders] and [order_items]
    as they were before the checkout, while the stock stays decremented,
    the cart stays empty and the id is used up. *)
Theorem delete_does_not_restock (fails : query → bool)
    (fails_order : order_query → bool) (userId now : Z) (s : db) :
  (∀ q, fails q = false) → (∀ q, fails_order q = false) →
  cart_of s userId ≠ [] →
  orders_below_counter s → lines_below_counter s →
  let bought := (cartController.checkout fails userId now s).1 in
  let out := adminOrders.remove fails_order (Some (orders_auto_increment s)) bought in
  out.2 = Reply (Some ["Order deleted"%string]) (redirect "/admin/orders")
  ∧ orders out.1 = orders s
  ∧ order_items out.1 = order_items s
  ∧ products out.1 = products bought
  ∧ (∀ pid, products out.1 !! pid
            = stock_after fails (cart_of s userId) pid <$> products s !! pid)
  ∧ cart_of out.1 userId = []
  ∧ orders_auto_increment out.1 = orders_auto_increment s + 1.
Proof.
  intros Hf Hfo Hne Ho Hl bought out. subst out bought.
  rewrite (checkout_succeeds fails userId now s Hf Hne). cbn [fst].
  rewrite remove_steps, !Hfo. cbv zeta. cbn [fst snd products orders
    order_items orders_auto_increment].
  split; [done|]. split; [|split; [|split; [done|split; [|split]]]].
  - rewrite after_clear_orders. apply delete_insert_id.
    destruct (orders s !! orders_auto_increment s) as [o|] eqn:E; [|done].
    apply Ho in E. lia.
  - rewrite after_clear_order_items, List.filter_app.
    rewrite (filter_none _ (map _ _)).
    + rewrite app_nil_r. apply filter_all. intros r Hr%Hl.
      apply negb_true_iff, Z.eqb_neq. lia.
    + intros r (i & <- & _)%in_map_iff. simpl. by rewrite Z.eqb_refl.
  - intros pid. unfold after_clear, set_cart_items; cbn [products].
    apply after_stock_products.
  - unfold cart_of; cbn [cart_items products].
    apply (after_clear_cart_of fails userId now s).
  - unfold after_clear, set_cart_items, after_stock; cbn [orders_auto_increment].
    by destruct (fold_decrease_tables fails (cart_of s userId)
                   (after_lines userId now s, false)) as (_ & _ & -> & _).
Qed.

(** The instance on scenario B: after checkout and delete no order and no
    line is left, and the stock is 3. *)
Lemma delete_does_not_restock_witness :
  let out := adminOrders.remove (λ _, false) (Some 1)
               (cartController.checkout no_faults 7 1700000000000
                  (scenario_B 5)).1 in
  orders out.1 = ∅ ∧ order_items out.1 = []
  ∧ products out.1 !! 1 = Some (Product "Milk" 3 10%float "milk.png").
Proof.
  intros out.
  pose proof (delete_does_not_restock no_faults (λ _, false) 7 1700000000000
                (scenario_B 5) (λ _, eq_refl) (λ _, eq_refl)
                ltac:(vm_compute; discriminate)
                ltac:(by intros id o [=])
                ltac:(by intros r [])) as H.
  cbv zeta in H. destruct H as (_ & H1 & H2 & _ & H3 & _).
  split; [exact H1|]. split; [exact H2|]. rewrite H3. reflexivity.
Defined.

(* ===================================================================== *)
(** ** The checkout and the stock *)
(* ===================================================================== *)

Lemma same_but_stock_cart_of s1 s2 u :
  same_but_stock s1 s2 → cart_of s1 u = cart_of s2 u.
Proof.
  intros (Hc & _ & _ & _ & Hp). unfold cart_of. rewrite Hc. f_equal.
  induction (List.filter _ (cart_items s2)) as [|r rows IH]; [done|].
  cbn [omap list_omap]. rewrite IH.
  replace (cartModel.join_product (products s1) r)
    with (cartModel.join_product (products s2) r); [done|].
  unfold cartModel.join_product. specialize (Hp (ci_productId r)).
  destruct (products s1 !! ci_productId r) as [p1|],
           (products s2 !! ci_productId r) as [p2|]; try done.
  by destruct Hp as (-> & -> & ->).
Qed.

Lemma stock_after_columns fails items pid p :
  p_productName (stock_after fails items pid p) = p_productName p
  ∧ p_price (stock_after fails items pid p) = p_price p
  ∧ p_image (stock_after fails items pid p) = p_image p.
Proof. rewrite stock_after_total. by destruct (_ =? 0). Qed.

(** The checkout does not look at the stock.  Two states that differ at
    most in the quantities of their products get the same reply from the
    checkout, whatever statements fail, and the same orders, order lines
    and carts afterwards: a cart line for more units than are in stock is
    sold as it stands. *)
Theorem checkout_ignores_stock (fails : query → bool) (userId now : Z)
    (s1 s2 : db) :
  same_but_stock s1 s2 →
  let out1 := cartController.checkout fails userId now s1 in
  let out2 := cartController.checkout fails userId now s2 in
  out1.2 = out2.2 ∧ same_but_stock out1.1 out2.1.
Proof.
  intros Hs out1 out2. subst out1 out2.
  pose proof (same_but_stock_cart_of s1 s2 userId Hs) as Hcart.
  destruct Hs as (Hc & Ho & Hn & Hl & Hp).
  assert (same_but_stock s1 s2) as Hs by done.
  assert (same_but_stock (after_header userId now s1) (after_header userId now s2))
    as Hheader.
  { unfold after_header, same_but_stock; cbn. by rewrite Hc, Ho, Hn, Hl, Hcart. }
  assert (same_but_stock (after_stock fails userId now s1)
                         (after_stock fails userId now s2)) as Hstock.
  { destruct (fold_decrease_tables fails (cart_of s1 userId)
                (after_lines userId now s1, false)) as (A1 & A2 & A3 & A4).
    destruct (fold_decrease_tables fails (cart_of s2 userId)
                (after_lines userId now s2, false)) as (B1 & B2 & B3 & B4).
    fold (after_stock fails userId now s1) in A1, A2, A3, A4.
    fold (after_stock fails userId now s2) in B1, B2, B3, B4.
    unfold same_but_stock. rewrite A1, A2, A3, A4, B1, B2, B3, B4.
    unfold after_lines; cbn. rewrite Hc, Ho, Hn, Hl, Hcart.
    do 4 (split; [done|]). intros pid. rewrite !after_stock_products, Hcart.
    specialize (Hp pid).
    destruct (products s1 !! pid) as [p1|], (products s2 !! pid) as [p2|]; try done.
    cbn. destruct (stock_after_columns fails (cart_of s2 userId) pid p1)
      as (-> & -> & ->).
    by destruct (stock_after_columns fails (cart_of s2 userId) pid p2)
      as (-> & -> & ->). }
  rewrite !checkout_steps, Hcart, Hn.
  destruct (fails (SelectCart userId)); [done|].
  destruct (cart_of s2 userId) as [|i c] eqn:Hc2; [done|].
  destruct (fails (InsertOrder userId)); [done|].
  destruct (fails (InsertOrderItems _)); [done|].
  destruct (stock_update_fails fails _); [done|].
  destruct (fails (DeleteCart userId)); [done|].
  cbn [fst snd]. split; [done|].
  destruct Hstock as (C1 & C2 & C3 & C4 & C5).
  unfold after_clear, set_cart_items, same_but_stock; cbn. by rewrite C1.
Qed.

(** An instance: scenario B with five units in stock and with none gets
    the same reply, and the same order of two units. *)
Lemma checkout_ignores_stock_witness :
  (cartController.checkout no_faults 7 1700000000000 (scenario_B 0)).2
  = (cartController.checkout no_faults 7 1700000000000 (scenario_B 5)).2
  ∧ orders (cartController.checkout no_faults 7 1700000000000 (scenario_B 0)).1
    = orders (cartController.checkout no_faults 7 1700000000000 (scenario_B 5)).1.
Proof.
  assert (same_but_stock (scenario_B 0) (scenario_B 5)) as Hs.
  { do 4 (split; [done|]). intros pid. simpl.
    destruct (decide (pid = 1)) as [->|Hne].
    - by rewrite !lookup_singleton_eq.
    - by rewrite !lookup_singleton_ne. }
  destruct (checkout_ignores_stock no_faults 7 1700000000000 _ _ Hs)
    as (H1 & _ & H2 & _).
  by split.
Defined.

(* ===================================================================== *)
(** ** Cart quantities and the stock *)
(* ===================================================================== *)

Lemma cart_quantity_upsert u p q s u' p' :
  cart_quantity (set_cart_items (cartModel.upsert u p q) s) u' p'
  = if decide ((u', p') = (u, p)) then q else cart_quantity s u' p'.
Proof.
  unfold cart_quantity, set_cart_items; simpl. case_decide as H.
  - injection H as -> ->. by rewrite find_upsert_same.
  - by rewrite find_upsert_other.
Qed.

Lemma cart_quantity_removed u p s u' p' :
  cart_quantity
    (set_cart_items (List.filter (λ r, negb (cartModel.is_line u p r))) s) u' p'
  = if decide ((u', p') = (u, p)) then 0 else cart_quantity s u' p'.
Proof.
  unfold cart_quantity, set_cart_items; simpl. case_decide as H.
  - injection H as -> ->. by rewrite find_filter_out.
  - by rewrite find_filter_other.
Qed.

Lemma cart_quantity_cleared u s u' p' :
  cart_quantity
    (set_cart_items (List.filter (λ r, negb (ci_userId r =? u))) s) u' p'
  = if decide (u' = u) then 0 else cart_quantity s u' p'.
Proof.
  unfold cart_quantity, set_cart_items; simpl.
  induction (cart_items s) as [|r rows IH]; simpl; [by case_decide|].
  destruct (Z.eqb_spec (ci_userId r) u) as [Hu|Hu]; simpl.
  - rewrite IH. case_decide as H; [done|].
    replace (cartModel.is_line u' p' r) with false; [done|].
    symmetry. apply not_true_is_false. intros [= Hr _]%is_line_spec. congruence.
  - destruct (cartModel.is_line u' p' r) eqn:Hr; [|done].
    apply is_line_spec in Hr as [= Hr' _]. case_decide; [congruence|done].
Qed.

Section WithinStock.
Variable fails : query → bool.

Lemma removeItem_effect u p s :
  cart_effect u p s (cartModel.removeItem fails u p s).1.
Proof.
  unfold cartModel.removeItem, execute. destruct (fails _); constructor.
Qed.

Lemma add_effect u p v t s :
  cart_effect u p s (cartController.add fails u p v t s).1.
Proof.
  unfold cartController.add. rewrite on_fst.
  unfold productModel.getById, select.
  destruct (fails (SelectProduct p)); [constructor|]. cbn [fst snd].
  destruct (products s !! p) as [prod|] eqn:Hp; [|constructor].
  destruct (Z.leb_spec (p_quantity prod) 0) as [Hs|Hs]; [constructor|].
  rewrite on_fst. unfold cartModel.getItemQuantity, select.
  destruct (fails (SelectCartQuantity u p)); [constructor|]. cbn [fst snd].
  fold (cart_quantity s u p). set (c := cart_quantity s u p).
  destruct (Z.leb_spec (p_quantity prod - c) 0) as [Hm|Hm]; [constructor|].
  cbn [orb].
  destruct (JS.Math_max (JS.Fin 1) (JS.Number_or_1 v)) as [|r|[]] eqn:Hr.
  - cbn. constructor.
  - cbn [JS.num_gtb JS.num_ltb JS.num_add].
    destruct (Z.ltb_spec (p_quantity prod - c) r) as [Hgt|Hle]; [constructor|].
    rewrite on_fst. unfold cartModel.setQuantity. cbn [JS.num_leb].
    destruct (Z.leb_spec (c + r) 0) as [Hz|Hz].
    + pose proof (removeItem_effect u p s) as H.
      by destruct (cartModel.removeItem fails u p s) as [s' [[]|]].
    + unfold execute. destruct (fails _); cbn; [constructor|].
      apply (effect_written u p s (c + r) prod Hp). lia.
  - cbn [JS.num_gtb JS.num_ltb JS.num_add orb]. rewrite on_fst.
    unfold cartModel.setQuantity. cbn [JS.num_leb].
    pose proof (removeItem_effect u p s) as H.
    by destruct (cartModel.removeItem fails u p s) as [s' [[]|]].
  - cbn. constructor.
Qed.

Lemma updateQuantity_effect u p v s :
  cart_effect u p s (cartController.updateQuantity fails u p v s).1.
Proof.
  unfold cartController.updateQuantity. rewrite on_fst.
  unfold productModel.getById, select.
  destruct (fails (SelectProduct p)); [constructor|]. cbn [fst snd].
  destruct (products s !! p) as [prod|] eqn:Hp; [|constructor].
  destruct (requested_quantity_range v) as (n & -> & Hn & _).
  destruct (Z.leb_spec (p_quantity prod) 0) as [Hs|Hs].
  - rewrite on_fst. pose proof (removeItem_effect u p s) as H.
    by destruct (cartModel.removeItem fails u p s) as [s' [[]|]].
  - rewrite on_fst. unfold JS.num_gtb, JS.num_ltb.
    destruct (Z.ltb_spec (p_quantity prod) n) as [Hlt|Hge];
      unfold cartModel.setQuantity; cbn [JS.num_leb].
    + replace (p_quantity prod <=? 0) with false
        by (symmetry; apply Z.leb_gt; lia).
      unfold execute. destruct (fails _); cbn; [constructor|].
      apply (effect_written u p s _ prod Hp). lia.
    + replace (n <=? 0) with false by (symmetry; apply Z.leb_gt; lia).
      unfold execute. destruct (fails _); cbn; [constructor|].
      apply (effect_written u p s _ prod Hp). lia.
Qed.

Lemma cart_effect_bound u p s s' :
  cart_well_formed s → cart_effect u p s s' →
  ∀ u' p' prod, products s !! p' = Some prod →
    cart_quantity s' u' p' ≤ Z.max (cart_quantity s u' p') (p_quantity prod).
Proof.
  intros Hwf He u' p' prod Hp.
  pose proof (cart_quantity_nonneg s u' p' Hwf) as Hc.
  destruct He as [| |q prod' Hp' Hq].
  - lia.
  - rewrite cart_quantity_removed. case_decide; lia.
  - rewrite cart_quantity_upsert. case_decide as H; [|lia].
    injection H as -> ->. rewrite Hp in Hp'. injection Hp' as <-. lia.
Qed.

(** No route of the shopper lifts a cart line above the stock.  From a
    well-formed cart, after any route, with any form value and whatever
    statements fail, every cart line of every user holds at most the
    larger of what it held and the stock its product had; so add, remove,
    update and clear keep "every line is within the stock" once it
    holds. *)
Theorem cart_lines_stay_within_stock (userId : Z) (req : request) (s : db) :
  cart_well_formed s →
  let s' := (route fails userId req s).1 in
  (∀ u pid p, products s !! pid = Some p →
     cart_quantity s' u pid ≤ Z.max (cart_quantity s u pid) (p_quantity p))
  ∧ ((∀ now, req ≠ GetCartCheckout now) →
       cart_within_stock s → cart_within_stock s').
Proof.
  intros Hwf s'. subst s'.
  assert (∀ u pid p, products s !! pid = Some p →
            cart_quantity (route fails userId req s).1 u pid
            ≤ Z.max (cart_quantity s u pid) (p_quantity p)) as Hbound.
  { destruct req as [rid q t|rid|rid q| |now]; simpl.
    - intros u pid. apply (cart_effect_bound userId rid); [done|apply add_effect].
    - intros u pid. apply (cart_effect_bound userId rid); [done|].
      unfold cartController.remove. rewrite on_fst.
      pose proof (removeItem_effect userId rid s) as H.
      by destruct (cartModel.removeItem fails userId rid s) as [s' [[]|]].
    - intros u pid.
      apply (cart_effect_bound userId rid); [done|apply updateQuantity_effect].
    - intros u pid p Hp. pose proof (cart_quantity_nonneg s u pid Hwf).
      unfold cartController.clear. rewrite on_fst.
      unfold cartModel.clearCart, execute. destruct (fails _); cbn; [lia|].
      rewrite cart_quantity_cleared. case_decide; lia.
    - intros u pid p Hp. pose proof (cart_quantity_nonneg s u pid Hwf).
      rewrite checkout_steps.
      assert (cart_items (after_stock fails userId now s) = cart_items s) as Hst.
      { unfold after_stock.
        by destruct (fold_decrease_tables fails (cart_of s userId)
                       (after_lines userId now s, false)) as (-> & _). }
      assert (∀ t, cart_items t = cart_items s →
                cart_quantity t u pid = cart_quantity s u pid) as Hsame
        by (intros t Ht; unfold cart_quantity; by rewrite Ht).
      destruct (fails (SelectCart userId)); [cbn; lia|].
      destruct (cart_of s userId) as [|i c]; [cbn; lia|].
      destruct (fails (InsertOrder userId)); [cbn; lia|].
      destruct (fails (InsertOrderItems _)); [cbn [fst]; rewrite Hsame; [lia|done]|].
      destruct (stock_update_fails fails _); [cbn [fst]; rewrite Hsame; [lia|done]|].
      destruct (fails (DeleteCart userId)); [cbn [fst]; rewrite Hsame; [lia|done]|].
      cbn [fst]. unfold after_clear. rewrite cart_quantity_cleared.
      case_decide; [lia|]. rewrite Hsame; [lia|done]. }
  split; [done|]. intros Hreq Hin u pid p Hp.
  pose proof (cart_routes_frame fails userId req s) as Hframe.
  destruct req as [rid q t|rid|rid q| |now]; [| | | |by destruct (Hreq now)];
    destruct Hframe as (Hprod & _); rewrite Hprod in Hp;
    specialize (Hbound u pid p Hp); specialize (Hin u pid p Hp); lia.
Qed.

End WithinStock.

(** An instance on scenario B with two in stock: asking for 5000 units
    leaves the line at 2. *)
Lemma cart_lines_stay_within_stock_witness :
  cart_quantity
    (route no_faults 7 (PostCartUpdate 1 (JS.Numeral 5000)) (scenario_B 2)).1 7 1
  ≤ 2.
Proof.
  destruct (cart_lines_stay_within_stock no_faults 7
              (PostCartUpdate 1 (JS.Numeral 5000)) (scenario_B 2)
              (scenario_B_well_formed 2)) as [H _].
  apply (H 7 1 (Product "Milk" 2 10%float "milk.png") eq_refl).
Defined.

(* ===================================================================== *)
(** ** The invoice page of a past order *)
(* ===================================================================== *)

Section Invoice.
Variable fails : query → bool.
Variable fails_order : order_query → bool.
Variable createdAt : Z → Z.

Lemma show_steps userId oid s :
  orderItemsController.show fails fails_order createdAt userId (Some oid) s =
  if fails_order (SelectOrderOfUser userId oid)
  then (s, orderItemsController.page_send 500 "Database error")
  else match orders s !! oid with
       | Some o =>
           if o_userId o =? userId then
             if fails (SelectOrderItems oid)
             then (s, orderItemsController.page_send 500 "Database error")
             else (s, orderItemsController.page_checkout
                        (map orderItemsController.line_of
                           (List.filter (λ r, oi_orderId r =? oid) (order_items s)))
                        (o_invoiceNumber o) (createdAt oid)
                        (orderItemsController.finite_or_undefined (o_subtotal o))
                        (orderItemsController.finite_or_undefined (o_tax_amount o))
                        (orderItemsController.finite_or_undefined (o_total o)))
           else (s, orderItemsController.page_redirect "/orders")
       | None => (s, orderItemsController.page_redirect "/orders")
       end.
Proof.
  unfold orderItemsController.show, getByUserAndId, select_order.
  destruct (fails_order _); [done|].
  destruct (orders s !! oid) as [o|]; [|done].
  destruct (o_userId o =? userId); [|done].
  unfold orderItemModel.getByOrder, select. by destruct (fails _).
Qed.

(** An invoice is shown to the user who owns the order, and to nobody
    else.  [show] never changes a table.  When it renders the invoice, the
    id of the request is a number, the order of that id exists and belongs
    to the user of the session, the invoice number is the order's and the
    lines are the order's lines, in the order of the table, with an empty
    image.  For an id that is not a number, an order that does not exist
    or an order of another user, it redirects to /orders (the latter two
    when the SELECT of the order goes through); when a statement fails it
    sends 500. *)
Theorem invoice_shown_to_owner_only (userId : Z) (param_id : option Z) (s : db) :
  let out := orderItemsController.show fails fails_order createdAt userId param_id s in
  out.1 = s
  ∧ (∀ cart inv date sub tax tot,
       out.2 = orderItemsController.page_checkout cart inv date sub tax tot →
       ∃ oid o, param_id = Some oid ∧ orders s !! oid = Some o
         ∧ o_userId o = userId ∧ inv = o_invoiceNumber o
         ∧ cart = map orderItemsController.line_of
                    (List.filter (λ r, oi_orderId r =? oid) (order_items s))
         ∧ Forall (λ l, orderItemsController.il_image l = EmptyString) cart)
  ∧ (param_id = None → out.2 = orderItemsController.page_redirect "/orders")
  ∧ (∀ oid, param_id = Some oid →
       fails_order (SelectOrderOfUser userId oid) = false →
       (∀ o, orders s !! oid = Some o → o_userId o ≠ userId) →
       out.2 = orderItemsController.page_redirect "/orders")
  ∧ (∀ oid, param_id = Some oid →
       fails_order (SelectOrderOfUser userId oid) = true →
       out.2 = orderItemsController.page_send 500 "Database error").
Proof.
  intros out. subst out. destruct param_id as [oid|].
  - rewrite show_steps.
    destruct (fails_order (SelectOrderOfUser userId oid)) eqn:Hsel.
    { split; [done|]. split; [done|]. split; [done|].
      split; [intros ? [= <-]; congruence|]. by intros ? [= <-]. }
    destruct (orders s !! oid) as [o|] eqn:Ho.
    + destruct (Z.eqb_spec (o_userId o) userId) as [Hu|Hu].
      * destruct (fails (SelectOrderItems oid)).
        { split; [done|]. split; [done|]. split; [done|].
          split; [|intros ? [= <-]; congruence].
          intros ? [= <-] _ Hother. by destruct (Hother o Ho). }
        split; [done|]. split.
        { intros cart inv date sub tax tot [= <- <- _ _ _ _].
          exists oid, o. do 5 (split; [done|]).
          apply Forall_forall. by intros l (r & -> & _)%list_elem_of_fmap. }
        split; [done|]. split; [|intros ? [= <-]; congruence].
        intros ? [= <-] _ Hother. by destruct (Hother o Ho).
      * split; [done|]. split; [done|]. split; [done|].
        split; [done|]. intros ? [= <-]; congruence.
    + split; [done|]. split; [done|]. split; [done|].
      split; [done|]. intros ? [= <-]; congruence.
  - simpl. split; [done|]. split; [done|]. split; [done|]. split; by intros.
Qed.

End Invoice.

(** The invoice of a checkout.  After a checkout with no failing
    statement of a cart that is not empty (no stale line carrying the new
    id), the buyer's invoice page of the new order shows the invoice
    number of the checkout, one line per cart item, in the order of the
    cart, with the item's product, name, price and quantity and the
    subtotal price * quantity, and the stored subtotal, tax and total (each
    left out when it is not finite); every other user is redirected to
    /orders. *)
Theorem checkout_then_invoice (fails_order : order_query → bool)
    (createdAt : Z → Z) (userId now : Z) (s : db) :
  cart_of s userId ≠ [] →
  (∀ r, In r (order_items s) → oi_orderId r ≠ orders_auto_increment s) →
  let cart := cart_of s userId in
  let oid := orders_auto_increment s in
  let s' := (cartController.checkout no_faults userId now s).1 in
  (fails_order (SelectOrderOfUser userId oid) = false →
     (orderItemsController.show no_faults fails_order createdAt userId (Some oid) s').2
     = orderItemsController.page_checkout
         (map (λ item, orderItemsController.InvoiceLine
                         (id item) (productName item) (price item) EmptyString
                         (quantity item)
                         (price item * JS.Number_of_int (quantity item))%float)
              cart)
         ("INV-" +:+ pretty now) (createdAt oid)
         (orderItemsController.finite_or_undefined
            (orderModel.formatMoney (Some (cartController.subtotal_of cart))))
         (orderItemsController.finite_or_undefined
            (orderModel.formatMoney (Some (taxAmount_of cart))))
         (orderItemsController.finite_or_undefined
            (o_total (header_of userId now cart))))
  ∧ (∀ other, other ≠ userId →
       fails_order (SelectOrderOfUser other oid) = false →
       (orderItemsController.show no_faults fails_order createdAt other (Some oid) s').2
       = orderItemsController.page_redirect "/orders").
Proof.
  intros Hne Hfresh cart oid s'.
  assert (s' = after_clear no_faults userId now s) as ->
    by (unfold s'; by rewrite (checkout_succeeds no_faults userId now s)).
  assert (orders (after_clear no_faults userId now s) !! oid
          = Some (header_of userId now cart)) as Ho
    by (by rewrite after_clear_orders, lookup_insert_eq).
  split.
  - intros Hsel. rewrite show_steps, Hsel, Ho.
    replace (o_userId (header_of userId now cart) =? userId) with true
      by (symmetry; apply Z.eqb_refl).
    cbn [fst snd no_faults]. f_equal.
    rewrite after_clear_order_items, List.filter_app. unfold oid.
    rewrite (no_lines_of_fresh_order _ _ Hfresh), filter_own_lines. simpl.
    by rewrite map_map.
  - intros other Hother Hsel. rewrite show_steps, Hsel, Ho.
    replace (o_userId (header_of userId now cart) =? other) with false; [done|].
    symmetry. apply Z.eqb_neq. simpl. congruence.
Qed.

(** The instance on scenario B: the buyer sees one line of two units
    at 10, subtotal 20, and the amounts 20, 1.8 and 21.8. *)
Lemma checkout_then_invoice_witness :
  (orderItemsController.show no_faults (λ _, false) (λ _, 0) 7 (Some 1)
     (cartController.checkout no_faults 7 1700000000000 (scenario_B 5)).1).2
  = orderItemsController.page_checkout
      [orderItemsController.InvoiceLine 1 "Milk" 10%float EmptyString 2 20%float]
      "INV-1700000000000" 0 (Some 20%float) (Some 1.8%float) (Some 21.8%float).
Proof.
  destruct (checkout_then_invoice (λ _, false) (λ _, 0) 7 1700000000000
              (scenario_B 5)) as [H _].
  - by vm_compute.
  - intros r [].
  - change (Some 1) with (Some (orders_auto_increment (scenario_B 5))).
    rewrite (H eq_refl). by vm_compute.
Defined.

(* ===================================================================== *)
(** ** The administrator's order edit *)
(* ===================================================================== *)




Lemma alter_missing {A} (g : A → A) (k : Z) (m : gmap Z A) :
  m !! k = None → alter g k m = m.
Proof.
  intros Hk. apply map_eq. intros i. destruct (decide (i = k)) as [->|Hne].
  - by rewrite lookup_alter_eq, Hk.
  - by rewrite lookup_alter_ne.
Qed.

(** An order edit touches one order and never its owner.  Whatever the
    form and whatever fails, [update] leaves products, carts, order lines
    and the id counter as they are, every other order as it is, creates
    and deletes no order, and keeps the owner of every order.  For an id
    that is not a number it redirects to the list.  For the id of no
    order, a form that passes the checks is answered with 'Order updated'
    although no row was there to update. *)
Theorem order_edit_touches_one_order (fails : query → bool) (id : option Z)
    (f : adminOrdersController.edit_form) (s : db) :
  let out := adminOrdersController.update fails id f s in
  products out.1 = products s ∧ cart_items out.1 = cart_items s
  ∧ order_items out.1 = order_items s
  ∧ orders_auto_increment out.1 = orders_auto_increment s
  ∧ (∀ other, id ≠ Some other → orders out.1 !! other = orders s !! other)
  ∧ (∀ oid, orders out.1 !! oid = None ↔ orders s !! oid = None)
  ∧ (∀ oid o', orders out.1 !! oid = Some o' →
       ∃ o, orders s !! oid = Some o ∧ o_userId o' = o_userId o)
  ∧ (id = None → out = (s, Reply None (redirect "/admin/orders")))
  ∧ (∀ oid, id = Some oid → orders s !! oid = None →
       adminOrdersController.validate f = [] → fails (UpdateOrder oid) = false →
       out = (s, Reply (Some ["Order updated"%string]) (redirect "/admin/orders"))).
Proof.
  intros out.
  assert (out.1 = s ∨ ∃ oid g, id = Some oid
            ∧ (∀ o, o_userId (g o) = o_userId o)
            ∧ out.1 = orderModel.set_orders (alter g oid) s) as Hcases.
  { subst out. destruct id as [oid|]; [|by left]. unfold adminOrdersController.update.
    destruct (adminOrdersController.validate f); [|by left].
    unfold on, orderModel.update, execute. destruct (fails _); [by left|].
    right. eexists oid, _. split; [done|]. split; [|done]. done. }
  assert (∀ oid, id = Some oid → orders s !! oid = None →
            adminOrdersController.validate f = [] → fails (UpdateOrder oid) = false →
            out = (s, Reply (Some ["Order updated"%string])
                        (redirect "/admin/orders"))) as Hmissing.
  { intros oid -> Hno Hok Hf. subst out. unfold adminOrdersController.update.
    rewrite Hok. unfold on, orderModel.update, execute. rewrite Hf.
    cbn [fst snd respond]. f_equal. unfold orderModel.set_orders.
    rewrite (alter_missing _ _ _ Hno). by destruct s. }
  destruct Hcases as [->|(oid & g & -> & Hg & ->)].
  - do 4 (split; [done|]). split; [done|]. split; [done|].
    split; [intros oid o' H; by exists o'|]. split; [|exact Hmissing].
    by intros ->.
  - unfold orderModel.set_orders; cbn [products cart_items orders order_items
                                        orders_auto_increment].
    do 4 (split; [done|]).
    split; [intros other Hne; rewrite lookup_alter_ne; [done|congruence]|].
    split.
    { intros k. destruct (decide (k = oid)) as [->|Hne].
      - rewrite lookup_alter_eq. by destruct (orders s !! oid).
      - by rewrite lookup_alter_ne. }
    split; [|split; [done|exact Hmissing]].
    intros k o'. destruct (decide (k = oid)) as [->|Hne].
    + rewrite lookup_alter_eq. destruct (orders s !! oid) as [o|]; [|done].
      intros [= <-]. by exists o.
    + rewrite lookup_alter_ne by done. intros H. by exists o'.
Qed.

(* ===================================================================== *)
(** ** The route guards *)
(* ===================================================================== *)

(** Who reaches the handlers.  Without a logged-in user both the cart
    routes and the administrator's order routes change no table, leave
    the message 'Please log in to continue' and redirect to /login.  A
    session whose role is not 'user' gets 403 'Users only' from every cart
    route, and one whose role is not 'admin' gets 403 'Admins only' from
    the order routes, with no table changed and no message left; so no
    session changes the tables through both.  A session of role 'user'
    runs the cart handler for its own user id. *)
Theorem guards_keep_roles_apart (fails : query → bool)
    (fails_order : order_query → bool) (session_user : option middleware.user)
    (req : request) (areq : app.admin_request) (s : db) :
  let shop := app.cart_routes fails session_user req s in
  let admin := app.admin_order_routes fails fails_order session_user areq s in
  let login := Reply (Some ["Please log in to continue"%string]) (redirect "/login") in
  (session_user = None → shop = (s, login) ∧ admin = (s, login))
  ∧ (∀ u, session_user = Some u → middleware.role u ≠ "user"%string →
       shop = (s, Reply None (send 403 "Users only")))
  ∧ (∀ u, session_user = Some u → middleware.role u ≠ "admin"%string →
       admin = (s, Reply None (send 403 "Admins only")))
  ∧ (shop.1 = s ∨ admin.1 = s)
  ∧ (∀ u, session_user = Some u → middleware.role u = "user"%string →
       shop = route fails (middleware.user_id u) req s)
  ∧ (∀ u, session_user = Some u → middleware.role u = "admin"%string →
       admin = match areq with
               | app.PostAdminOrderEdit id form =>
                   adminOrdersController.update fails id form s
               | app.PostAdminOrderDelete id => adminOrders.remove fails_order id s
               end).
Proof.
  intros shop admin login. subst shop admin login.
  unfold app.cart_routes, app.admin_order_routes, middleware.ensureUser,
    middleware.ensureAdmin, middleware.ensureRole.
  destruct session_user as [[uid r]|]; cbn [middleware.role middleware.user_id].
  - destruct (String.eqb_spec r "user") as [Huser|Huser];
      destruct (String.eqb_spec r "admin") as [Hadmin|Hadmin];
      try (exfalso; congruence); cbn [negb respond fst snd];
      (split; [done|]);
      (split; [intros u [= <-]; cbn [middleware.role]; intros; first [done|congruence]|]);
      (split; [intros u [= <-]; cbn [middleware.role]; intros; first [done|congruence]|]);
      (split; [first [by left|by right]|]);
      split; intros u [= <-]; cbn [middleware.role middleware.user_id];
      intros; first [done|congruence|by destruct areq].
  - cbn [respond fst]. split; [done|]. split; [done|]. split; [done|].
    split; [by left|]. split; intros u [=].
Qed.

(* ===================================================================== *)
(** ** The notices of the cart page *)
(* ===================================================================== *)

(** A notice is shown once.  The cart page changes no table.  When a
    handler left the notices [l] in the session, the next cart page shows
    the user's cart with exactly [l] and empties the list; the cart page
    after that shows no notice.  The list is emptied before the cart is
    read: when that SELECT fails the page is 500 'Database error' and the
    notices are gone without having been shown.  A session that never had
    a list shows none and gets none. *)
Theorem notice_shown_once (fails : query → bool) (userId : Z)
    (before : option (list string)) (r : reply) (l : list string) (s : db) :
  messages r = Some l →
  let first_view := cartPage.view fails userId (cartPage.session_after before r) s in
  let second_view := cartPage.view fails userId first_view.1.2 first_view.1.1 in
  first_view.1.1 = s ∧ second_view.1.1 = s
  ∧ first_view.1.2 = Some [] ∧ second_view.1.2 = Some []
  ∧ (fails (SelectCart userId) = false →
       first_view.2 = cartPage.render_cart (cart_of s userId) l
       ∧ second_view.2 = cartPage.render_cart (cart_of s userId) [])
  ∧ (fails (SelectCart userId) = true →
       first_view.2 = cartPage.page_send 500 "Database error")
  ∧ cartPage.view no_faults userId None s
    = (s, None, cartPage.render_cart (cart_of s userId) []).
Proof.
  intros Hr first_view second_view. subst second_view first_view.
  unfold cartPage.session_after. rewrite Hr.
  unfold cartPage.view, cartPage.popMessages, cartModel.getCartItems, select.
  cbn [no_faults].
  destruct (fails (SelectCart userId)); cbn [fst snd];
    repeat split; try done; try (by destruct (fails (SelectCart userId))).
Qed.

(** An instance: the notice that an add beyond the stock leaves is shown
    by the next cart page. *)
Lemma notice_shown_once_witness :
  (cartPage.view no_faults 7
     (cartPage.session_after None
        (cartController.add no_faults 7 1 (JS.Numeral 9) None scenario_A).2)
     scenario_A).2
  = cartPage.render_cart [] ["Don't have sufficient stock for Milk."%string].
Proof.
  pose proof (notice_shown_once no_faults 7 None
                (cartController.add no_faults 7 1 (JS.Numeral 9) None scenario_A).2
                ["Don't have sufficient stock for Milk."%string] scenario_A
                eq_refl) as (_ & _ & _ & _ & H & _).
  destruct (H eq_refl) as [H1 _]. rewrite H1. by vm_compute.
Defined.

(* ===================================================================== *)
(** ** Editing and removing a product *)
(* ===================================================================== *)

Lemma omap_cons {A B} (f : A → option B) (x : A) (l : list A) :
  omap f (x :: l) = match f x with Some y => y :: omap f l | None => omap f l end.
Proof. done. Qed.

Lemma join_product_updated ps pid fields old r :
  ps !! pid = Some old →
  cartModel.join_product (<[pid := fields]> ps) r
  = reprice pid fields <$> cartModel.join_product ps r.
Proof.
  intros Hold. unfold cartModel.join_product.
  destruct (decide (ci_productId r = pid)) as [Hr|Hr].
  - rewrite Hr, lookup_insert_eq, Hold. unfold reprice. simpl.
    by rewrite Z.eqb_refl.
  - rewrite lookup_insert_ne by done.
    destruct (ps !! ci_productId r) as [p|]; [|done].
    unfold reprice. simpl. by rewrite (proj2 (Z.eqb_neq _ _) Hr).
Qed.

Lemma join_after_update ps pid fields rows old :
  ps !! pid = Some old →
  omap (cartModel.join_product (<[pid := fields]> ps)) rows
  = map (reprice pid fields) (omap (cartModel.join_product ps) rows).
Proof.
  intros Hold. induction rows as [|r rows IH]; [done|].
  rewrite !omap_cons, (join_product_updated _ _ _ old r Hold), IH.
  by destruct (cartModel.join_product ps r).
Qed.

Lemma join_product_removed ps pid r :
  cartModel.join_product (delete pid ps) r
  = match cartModel.join_product ps r with
    | Some l => if id l =? pid then None else Some l
    | None => None
    end.
Proof.
  unfold cartModel.join_product.
  destruct (decide (ci_productId r = pid)) as [Hr|Hr].
  - rewrite Hr, lookup_delete_eq. destruct (ps !! pid); [|done]. simpl.
    by rewrite Z.eqb_refl.
  - rewrite lookup_delete_ne by done.
    destruct (ps !! ci_productId r) as [p|]; [|done]. simpl.
    by rewrite (proj2 (Z.eqb_neq _ _) Hr).
Qed.

Lemma join_after_remove ps pid rows :
  omap (cartModel.join_product (delete pid ps)) rows
  = List.filter (λ l, negb (id l =? pid)) (omap (cartModel.join_product ps) rows).
Proof.
  induction rows as [|r rows IH]; [done|].
  rewrite !omap_cons, join_product_removed, IH.
  destruct (cartModel.join_product ps r) as [l|]; [|done]. simpl.
  by destruct (id l =? pid).
Qed.

Lemma mapCartRows_reprice pid fields rows :
  cartController.mapCartRows (map (reprice pid fields) rows)
  = map (reprice pid fields) (cartController.mapCartRows rows).
Proof.
  unfold cartController.mapCartRows. rewrite !map_map. apply map_ext.
  intros l. unfold reprice. cbn [id]. by destruct (id l =? pid).
Qed.

Lemma mapCartRows_filter pid rows :
  cartController.mapCartRows (List.filter (λ l, negb (id l =? pid)) rows)
  = List.filter (λ l, negb (id l =? pid)) (cartController.mapCartRows rows).
Proof.
  unfold cartController.mapCartRows.
  induction rows as [|l rows IH]; [done|]. cbn [List.filter map id].
  destruct (id l =? pid); cbn [negb map]; by rewrite IH.
Qed.

(** A product edit reaches the carts and not the orders.  [update]
    never creates a product: for the id of no product the tables are as
    before, although it calls back without an error.  When the UPDATE of
    an existing product goes through, [getById] returns the submitted
    fields, every cart that holds the product shows its new name, price
    and image with the quantity it had, the other cart lines and products
    are as before, and the lines of the orders keep the name and the unit
    price of the purchase.  A failed UPDATE changes nothing. *)
Theorem product_edit_reaches_carts_not_orders (fails : query → bool) (pid : Z)
    (fields : product) (s : db) :
  let out := productModel.update fails pid fields s in
  cart_items out.1 = cart_items s ∧ orders out.1 = orders s
  ∧ order_items out.1 = order_items s
  ∧ (∀ oid, (orderItemModel.getByOrder no_faults oid out.1).2
            = (orderItemModel.getByOrder no_faults oid s).2)
  ∧ (∀ other, other ≠ pid → products out.1 !! other = products s !! other)
  ∧ (products s !! pid = None → out.1 = s)
  ∧ (fails (UpdateProduct pid) = true → out = (s, Err))
  ∧ (fails (UpdateProduct pid) = false → out.2 = Ok tt)
  ∧ (fails (UpdateProduct pid) = false → is_Some (products s !! pid) →
       (productModel.getById no_faults pid out.1).2 = Ok (Some fields)
       ∧ ∀ u, cart_of out.1 u = map (reprice pid fields) (cart_of s u)).
Proof.
  intros out. subst out. unfold productModel.update, execute.
  destruct (fails (UpdateProduct pid)); cbn [fst snd].
  { do 6 (split; [done|]). split; [done|]. split; intros [=]. }
  unfold set_products; cbn [products cart_items orders order_items].
  do 4 (split; [done|]). split.
  { intros other Hne. destruct (products s !! pid); [|done].
    by rewrite lookup_insert_ne. }
  split; [intros ->; by destruct s|]. split; [done|]. split; [done|].
  intros _ [old Hold]. rewrite Hold. split.
  - unfold productModel.getById, select. cbn [no_faults snd products].
    by rewrite lookup_insert_eq.
  - intros u. unfold cart_of; cbn [products cart_items].
    by rewrite (join_after_update _ _ _ _ old Hold), mapCartRows_reprice.
Qed.

(** A removed product leaves the shop.  When the DELETE goes through,
    [getById] finds nothing, the other products are as before, the
    product is gone from the cart every user is shown and checks out
    (the other lines stay, in their order), and adding it to a cart or
    changing its quantity is answered with 404 and changes nothing.  A
    failed DELETE changes nothing. *)
Theorem removed_product_leaves_the_shop (fails : query → bool) (pid : Z) (s : db) :
  let out := productModel.remove fails pid s in
  (fails (DeleteProduct pid) = true → out = (s, Err))
  ∧ (fails (DeleteProduct pid) = false →
       out.2 = Ok tt
       ∧ (productModel.getById no_faults pid out.1).2 = Ok None
       ∧ (∀ other, other ≠ pid → products out.1 !! other = products s !! other)
       ∧ (∀ u, cart_of out.1 u
               = List.filter (λ l, negb (id l =? pid)) (cart_of s u))
       ∧ (∀ later u q t, later (SelectProduct pid) = false →
            cartController.add later u pid q t out.1 = (out.1, not_found))
       ∧ (∀ later u q, later (SelectProduct pid) = false →
            cartController.updateQuantity later u pid q out.1 = (out.1, not_found))).
Proof.
  intros out. subst out. unfold productModel.remove, execute.
  destruct (fails (DeleteProduct pid)); cbn [fst snd]; [by split|].
  split; [done|]. intros _. split; [done|].
  assert (products (set_products (delete pid) s) !! pid = None) as Hgone
    by (unfold set_products; cbn [products]; apply lookup_delete_eq).
  split; [unfold productModel.getById, select; cbn [no_faults snd]; by rewrite Hgone|].
  split; [intros other Hne; unfold set_products; cbn [products];
          by rewrite lookup_delete_ne|].
  split.
  { intros u. unfold cart_of, set_products; cbn [products cart_items].
    by rewrite join_after_remove, mapCartRows_filter. }
  split.
  - intros later u q t Hsel. unfold cartController.add, on, productModel.getById,
      select. by rewrite Hsel, Hgone.
  - intros later u q Hsel. unfold cartController.updateQuantity, on,
      productModel.getById, select. by rewrite Hsel, Hgone.
Qed.

(* ===================================================================== *)
(** ** Checking out again *)
(* ===================================================================== *)

Lemma cart_of_columns s1 s2 u :
  cart_items s1 = cart_items s2 →
  (∀ pid, products s1 !! pid = None ↔ products s2 !! pid = None) →
  (∀ pid p1 p2, products s1 !! pid = Some p1 → products s2 !! pid = Some p2 →
     p_productName p1 = p_productName p2 ∧ p_price p1 = p_price p2
     ∧ p_image p1 = p_image p2) →
  cart_of s1 u = cart_of s2 u.
Proof.
  intros Hc Hnone Hp. unfold cart_of. rewrite Hc. f_equal.
  induction (List.filter _ (cart_items s2)) as [|r rows IH]; [done|].
  cbn [omap list_omap]. rewrite IH.
  replace (cartModel.join_product (products s1) r)
    with (cartModel.join_product (products s2) r); [done|].
  unfold cartModel.join_product.
  specialize (Hnone (ci_productId r)). specialize (Hp (ci_productId r)).
  destruct (products s1 !! ci_productId r) as [p1|],
           (products s2 !! ci_productId r) as [p2|]; [|by destruct Hnone as [_ H];
             discriminate H| by destruct Hnone as [H _]; discriminate H|done].
  by destruct (Hp p1 p2 eq_refl eq_refl) as (-> & -> & ->).
Qed.

Lemma after_stock_cart_of fails userId now s :
  cart_of (after_stock fails userId now s) userId = cart_of s userId.
Proof.
  apply cart_of_columns.
  - unfold after_stock.
    by destruct (fold_decrease_tables fails (cart_of s userId)
                   (after_lines userId now s, false)) as (-> & _).
  - intros pid. rewrite after_stock_products. by destruct (products s !! pid).
  - intros pid p1 p2. rewrite after_stock_products. intros H1 H2.
    rewrite H2 in H1. injection H1 as <-. apply stock_after_columns.
Qed.

Lemma stock_update_goes_through cart :
  stock_update_fails clear_fails cart = false
  ∧ stock_update_fails no_faults cart = false.
Proof.
  unfold stock_update_fails. split; apply not_true_is_false;
    intros (x & _ & Hx)%existsb_exists; by rewrite andb_false_r in Hx.
Qed.

Lemma purchased_when_clear_fails cart pid :
  purchased clear_fails cart pid = purchased no_faults cart pid.
Proof.
  unfold purchased. induction (indexed cart) as [|x c IH]; [done|].
  simpl. by rewrite IH.
Qed.

(** A checkout that went through is not repeated.  After a checkout
    with no failing statement, a second checkout of the same user,
    whatever fails in it, changes no table: it creates no second order and
    takes nothing more off the stock; when it can read the cart it
    redirects to /cart with 'Your cart is empty.'. *)
Theorem checkout_is_not_repeated (later : query → bool) (userId now now' : Z)
    (s : db) :
  let first := cartController.checkout no_faults userId now s in
  let second := cartController.checkout later userId now' first.1 in
  second.1 = first.1
  ∧ (later (SelectCart userId) = false →
       second.2 = Reply (Some ["Your cart is empty."%string]) (redirect "/cart")).
Proof.
  intros first second.
  assert (cart_of first.1 userId = []) as Hempty.
  { subst first. destruct (cart_of s userId) as [|i c] eqn:Hc.
    - rewrite checkout_steps, Hc. by cbn.
    - rewrite (checkout_succeeds no_faults userId now s) by (done || by rewrite Hc).
      apply after_clear_cart_of. }
  subst second. rewrite checkout_steps, Hempty.
  destruct (later (SelectCart userId)); by split.
Qed.

(** A checkout that is tried again after the cart could not be cleared
    orders twice.  When only the DELETE of the cart fails, the request
    ends with 500 and the cart is as it was; a second checkout then goes
    through: the tables hold two orders with the same amounts, under the
    ids n and n + 1, each with its lines, and every product of the cart
    has lost its units twice, its stock being max(stock - 2 t, 0) for the
    t units of the cart. *)
Theorem retried_checkout_orders_twice (userId now now' : Z) (s : db) :
  cart_of s userId ≠ [] →
  let cart := cart_of s userId in
  let oid := orders_auto_increment s in
  let first := cartController.checkout clear_fails userId now s in
  let second := cartController.checkout no_faults userId now' first.1 in
  first.2 = database_error
  ∧ cart_items first.1 = cart_items s
  ∧ cart_of first.1 userId = cart
  ∧ second.2 = Reply None (render_checkout cart now' ("INV-" +:+ pretty now')
                             (cartController.subtotal_of cart)
                             (taxAmount_of cart) (total_of cart))
  ∧ orders second.1 !! oid = Some (header_of userId now cart)
  ∧ orders second.1 !! (oid + 1) = Some (header_of userId now' cart)
  ∧ order_items second.1
    = order_items s ++ map (orderItemModel.row_of oid) cart
      ++ map (orderItemModel.row_of (oid + 1)) cart
  ∧ (∀ pid p, products s !! pid = Some p →
       let t := purchased no_faults cart pid in
       products second.1 !! pid
       = Some (if t =? 0 then p else productModel.decrease (2 * t) p)).
Proof.
  intros Hne cart oid first second.
  assert (first = (after_stock clear_fails userId now s, database_error)) as Hfirst.
  { subst first. rewrite (checkout_pipeline clear_fails userId now s) by done.
    cbn [clear_fails]. by rewrite (proj1 (stock_update_goes_through _)). }
  assert (cart_of first.1 userId = cart) as Hcart
    by (rewrite Hfirst; apply after_stock_cart_of).
  assert (orders_auto_increment first.1 = oid + 1
          ∧ orders first.1 = <[oid := header_of userId now cart]> (orders s)
          ∧ order_items first.1
            = order_items s ++ map (orderItemModel.row_of oid) cart
          ∧ cart_items first.1 = cart_items s) as (Hn & Ho & Hl & Hc).
  { rewrite Hfirst. cbn [fst]. unfold after_stock.
    by destruct (fold_decrease_tables clear_fails (cart_of s userId)
                   (after_lines userId now s, false)) as (-> & -> & -> & ->). }
  assert (second = (after_clear no_faults userId now' first.1,
                    Reply None (render_checkout cart now' ("INV-" +:+ pretty now')
                                  (cartController.subtotal_of cart)
                                  (taxAmount_of cart) (total_of cart)))) as Hsecond.
  { subst second.
    rewrite (checkout_succeeds no_faults userId now' first.1)
      by (done || by rewrite Hcart).
    by rewrite Hcart. }
  split; [by rewrite Hfirst|]. split; [done|]. split; [done|].
  split; [by rewrite Hsecond|]. rewrite Hsecond. cbn [fst].
  rewrite after_clear_orders, after_clear_order_items, Hn, Ho, Hl, Hcart.
  split; [rewrite lookup_insert_ne by lia; by rewrite lookup_insert_eq|].
  split; [by rewrite lookup_insert_eq|]. split; [by rewrite <- app_assoc|].
  intros pid p Hp. cbv zeta. set (t := purchased no_faults cart pid).
  unfold after_clear, set_cart_items; cbn [products].
  rewrite after_stock_products, Hcart, Hfirst. cbn [fst].
  rewrite after_stock_products, Hp. cbn [fmap option_fmap option_map]. f_equal.
  fold cart. rewrite !stock_after_total.
  subst t. rewrite purchased_when_clear_fails.
  pose proof (purchased_nonneg no_faults cart pid) as Hpos.
  destruct (Z.eqb_spec (purchased no_faults cart pid) 0) as [Ht|Ht]; [done|].
  rewrite decrease_decrease by lia. f_equal. lia.
Qed.

(** The instance on scenario B with five units in stock: orders 1 and 2
    are written and one unit is left. *)
Lemma retried_checkout_orders_twice_witness :
  let first := cartController.checkout clear_fails 7 1700000000000 (scenario_B 5) in
  let second := cartController.checkout no_faults 7 1700000000001 first.1 in
  is_Some (orders second.1 !! 1) ∧ is_Some (orders second.1 !! 2)
  ∧ products second.1 !! 1 = Some (Product "Milk" 1 10%float "milk.png").
Proof.
  pose proof (retried_checkout_orders_twice 7 1700000000000 1700000000001
                (scenario_B 5) ltac:(vm_compute; discriminate)) as H.
  cbv zeta in H. destruct H as (_ & _ & _ & _ & H1 & H2 & _ & H3).
  split; [by eexists|]. split; [by eexists|].
  by rewrite (H3 1 (Product "Milk" 5 10%float "milk.png") eq_refl).
Defined.

(* ===================================================================== *)
(** ** The status, once stored *)
(* ===================================================================== *)

(** Storing a stored status again does not change it: [normalizeStatus]
    gives back its own results as they are, so an order row that is
    rewritten with the status it holds keeps it. *)
Theorem normalizeStatus_idempotent (v : value) :
  orderModel.normalizeStatus (Str (orderModel.normalizeStatus v))
  = orderModel.normalizeStatus v.
Proof.
  apply normalizeStatus_of_option. apply normalizeStatus_allowed.
Qed.
